(** * Customer-churn inference and decision layer

    A shallow embedding of the core of [app_streamlit_COMPLETE.py]:
    [load_model], [preprocess_input], [get_risk_level],
    [get_recommendations] and the prediction path of [main].

    Conventions of the embedding.
    - Python numbers (the [int] and [float] values of the form fields and
      the probabilities returned by the classifier) are exact rationals
      [Q]; a comparison [x >= 0.7] is [Qle_bool (7#10) x], a comparison
      [x > 5] is [Qlt_bool 5 x].  Rounding of binary floating point is
      outside the model.
    - Python [str] values are [string]s holding the UTF-8 bytes of the
      source literal.
    - A [dict] with string keys is a [gmap string _].
    - Python exceptions and Streamlit's [st.stop()] are the two abnormal
      outcomes of the monad [M] below; list objects live in a heap that
      is part of the state threaded by [M]. *)

From Stdlib Require Import QArith.
From Stdlib Require Import Lqa.
From stdpp Require Import gmap strings list.
From stdpp Require Import pretty.

Local Open Scope string_scope.
Local Open Scope list_scope.

(** ** Numbers *)

Definition Qlt_bool (x y : Q) : bool := negb (Qle_bool y x).

(** ** Risk levels *)

(** The dict literal returned by [get_risk_level]. *)
Record risk := { level : string; color : string; emoji : string }.

Definition get_risk_level (churn_prob : Q) : risk :=
  if Qle_bool (7#10) churn_prob then
    {| level := "매우 높음"; color := "#e74c3c"; emoji := "🔴" |}
  else if Qle_bool (5#10) churn_prob then
    {| level := "높음"; color := "#f39c12"; emoji := "🟠" |}
  else if Qle_bool (3#10) churn_prob then
    {| level := "보통"; color := "#3498db"; emoji := "🟡" |}
  else
    {| level := "낮음"; color := "#2ecc71"; emoji := "🟢" |}.

(** The four tiers of the specification, and the dict each one stands
    for in the source. *)
Inductive RiskTier := Low | Moderate | High | Critical.

Definition tier_risk (t : RiskTier) : risk :=
  match t with
  | Critical => {| level := "매우 높음"; color := "#e74c3c"; emoji := "🔴" |}
  | High => {| level := "높음"; color := "#f39c12"; emoji := "🟠" |}
  | Moderate => {| level := "보통"; color := "#3498db"; emoji := "🟡" |}
  | Low => {| level := "낮음"; color := "#2ecc71"; emoji := "🟢" |}
  end.

(** The three comparisons of [get_risk_level] (and of the first branch of
    [get_recommendations]) as one case analysis on the probability. *)
Inductive tier_case (p : Q) : RiskTier -> Prop :=
| case_critical :
    Qle_bool (7#10) p = true -> (7#10 <= p)%Q -> tier_case p Critical
| case_high :
    Qle_bool (7#10) p = false -> Qle_bool (5#10) p = true ->
    (5#10 <= p)%Q -> (p < 7#10)%Q -> tier_case p High
| case_moderate :
    Qle_bool (7#10) p = false -> Qle_bool (5#10) p = false ->
    Qle_bool (3#10) p = true ->
    (3#10 <= p)%Q -> (p < 5#10)%Q -> tier_case p Moderate
| case_low :
    Qle_bool (7#10) p = false -> Qle_bool (5#10) p = false ->
    Qle_bool (3#10) p = false -> (p < 3#10)%Q -> tier_case p Low.

(** ** Outcomes, the world and the monad *)

(** Exceptions the modelled code can meet: the two raised by Python's
    own subscripting, and any exception raised inside an external object
    (the scaler, the classifier, [open], [pickle.load]), kept as its
    class name and its [str()] text. *)
Inductive exception :=
| KeyError (key : string)
| IndexError
| Raised (cls msg : string).

Definition exn_class (e : exception) : string :=
  match e with
  | KeyError _ => "KeyError"
  | IndexError => "IndexError"
  | Raised cls _ => cls
  end.

Definition exn_str (e : exception) : string :=
  match e with
  | KeyError key => ("'" ++ key ++ "'")%string
  | IndexError => "list index out of range"
  | Raised _ msg => msg
  end.

(** A call returns, raises, or halts the script ([st.stop()], which
    [except Exception] does not catch). *)
Inductive outcome (A : Type) :=
| Ok (a : A)
| Raise (e : exception)
| Stop.
Arguments Ok {A} a.
Arguments Raise {A} e.
Arguments Stop {A}.

(** Objects a pickled model package can hold under a key: a list of
    names, a scaler with its [transform], a classifier with its
    [predict] and [predict_proba] (each on the one row of a request), or
    an object with none of these operations, such as a number or
    [None]. *)
Inductive value :=
| VNames (names : list string)
| VScaler (transform : list Q -> exception + list Q)
| VModel (predict : list Q -> exception + list Z)
         (predict_proba : list Q -> exception + list (list Q))
| VOther.

(** What opening and unpickling a file gives. *)
Abbreviation pickled := (exception + gmap string value)%type.

(** Elements written to the page: the Streamlit call and its text. *)
Inductive element :=
| st_error (text : string)
| st_info (text : string)
| st_code (text : string)
| st_success (text : string).

Definition loc := nat.

Record world := World {
  heap : list (list string);     (* the list objects, by address *)
  files : gmap string pickled;   (* the paths that exist, and their content *)
  page : list element            (* what has been displayed, oldest first *)
}.

Definition set_heap (h : list (list string)) (w : world) : world :=
  {| heap := h; files := files w; page := page w |}.

Definition set_page (p : list element) (w : world) : world :=
  {| heap := heap w; files := files w; page := p |}.

Definition M (A : Type) : Type := world -> outcome A * world.

#[global] Instance M_ret : MRet M := fun A a w => (Ok a, w).

#[global] Instance M_bind : MBind M := fun A B f m w =>
  match m w with
  | (Ok a, w') => f a w'
  | (Raise e, w') => (Raise e, w')
  | (Stop, w') => (Stop, w')
  end.

Definition raise {A} (e : exception) : M A := fun w => (Raise e, w).

Definition st_stop {A} : M A := fun w => (Stop, w).

Definition show (e : element) : M unit :=
  fun w => (Ok tt, set_page (page w ++ [e]) w).

(** [try: body / except Exception as e: handler e]. *)
Definition try_except {A} (body : M A) (handler : exception -> M A) : M A :=
  fun w =>
    match body w with
    | (Raise e, w') => handler e w'
    | r => r
    end.

(** [d[key]] on a dict. *)
Definition getitem {V} (d : gmap string V) (key : string) : M V :=
  match d !! key with
  | Some v => mret v
  | None => raise (KeyError key)
  end.

(** [a[i]] on a sequence. *)
Definition index {V} (a : list V) (i : nat) : M V :=
  match a !! i with
  | Some v => mret v
  | None => raise IndexError
  end.

(** The result of a call into an external object. *)
Definition call {A} (r : exception + A) : M A :=
  match r with
  | inl e => raise e
  | inr a => mret a
  end.

(** [[]]: a new list object, at a fresh address. *)
Definition new_list : M loc :=
  fun w => (Ok (length (heap w)), set_heap (heap w ++ [[]]) w).

(** A reference that [new_list] returned is always allocated; an
    address outside the heap cannot arise in Python and is flagged. *)
Definition dangling : exception := Raised "ReferenceError" "no such object".

(** [l.append(s)]: the object is changed in place. *)
Definition list_append (l : loc) (s : string) : M unit :=
  fun w =>
    match heap w !! l with
    | Some xs => (Ok tt, set_heap (<[l := xs ++ [s]]> (heap w)) w)
    | None => (Raise dangling, w)
    end.

(** Reading the elements of a list object, as iteration does. *)
Definition list_read (l : loc) : M (list string) :=
  fun w =>
    match heap w !! l with
    | Some xs => (Ok xs, w)
    | None => (Raise dangling, w)
    end.

(** ** Recommendations *)

Definition get_recommendations (churn_prob : Q) (input_data : gmap string Q)
  : M loc :=
  recommendations ← new_list;
  (if Qle_bool (7#10) churn_prob then
     list_append recommendations "🚨 **즉시 조치 필요**: VIP 할인 쿠폰 제공";;
     list_append recommendations "📞 **개인 상담**: 고객 서비스 팀 즉시 연락"
   else if Qle_bool (5#10) churn_prob then
     list_append recommendations "🎁 **특별 프로모션**: 맞춤형 할인 제안";;
     list_append recommendations "📧 **재참여 캠페인**: 이메일 마케팅 강화"
   else if Qle_bool (3#10) churn_prob then
     list_append recommendations "👀 **모니터링**: 정기적인 활동 추적";;
     list_append recommendations "💝 **로열티 프로그램**: 포인트 적립 혜택"
   else
     list_append recommendations "✅ **유지 관리**: 현재 만족도 유지";;
     list_append recommendations "🌟 **추천 요청**: 신규 고객 추천 유도");;
  calls ← getitem input_data "Customer_Service_Calls";
  (if Qlt_bool 5 calls then
     list_append recommendations "🆘 **서비스 개선**: 고객 불만 사항 해결"
   else mret tt);;
  cart ← getitem input_data "Cart_Abandonment_Rate";
  (if Qlt_bool 60 cart then
     list_append recommendations "🛒 **결제 프로세스 개선**: 장바구니 이탈 방지"
   else mret tt);;
  days ← getitem input_data "Days_Since_Last_Purchase";
  (if Qlt_bool 60 days then
     list_append recommendations "🔔 **재구매 유도**: 신제품 안내 및 할인"
   else mret tt);;
  mret recommendations.

(** What a caller sees when it iterates over the returned list. *)
Definition recommendation_list (churn_prob : Q) (input_data : gmap string Q)
  : M (list string) :=
  recommendations ← get_recommendations churn_prob input_data;
  list_read recommendations.

(** The message tables of the specification: the two tier-base messages
    of each tier and the three supplementary messages. *)
Definition tier_base_messages (t : RiskTier) : list string :=
  match t with
  | Critical => ["🚨 **즉시 조치 필요**: VIP 할인 쿠폰 제공";
                 "📞 **개인 상담**: 고객 서비스 팀 즉시 연락"]
  | High => ["🎁 **특별 프로모션**: 맞춤형 할인 제안";
             "📧 **재참여 캠페인**: 이메일 마케팅 강화"]
  | Moderate => ["👀 **모니터링**: 정기적인 활동 추적";
                 "💝 **로열티 프로그램**: 포인트 적립 혜택"]
  | Low => ["✅ **유지 관리**: 현재 만족도 유지";
            "🌟 **추천 요청**: 신규 고객 추천 유도"]
  end.

Definition service_message : string := "🆘 **서비스 개선**: 고객 불만 사항 해결".
Definition checkout_message : string := "🛒 **결제 프로세스 개선**: 장바구니 이탈 방지".
Definition winback_message : string := "🔔 **재구매 유도**: 신제품 안내 및 할인".

Definition supplementary_messages : list string :=
  [service_message; checkout_message; winback_message].

Definition is_base_message (s : string) : bool :=
  bool_decide (s ∈ tier_base_messages Critical ++ tier_base_messages High
                 ++ tier_base_messages Moderate ++ tier_base_messages Low).

(** The supplementary messages that three given feature values trigger,
    in rule order. *)
Definition supplementary (calls cart days : Q) : list string :=
  (if Qlt_bool 5 calls then [service_message] else []) ++
  (if Qlt_bool 60 cart then [checkout_message] else []) ++
  (if Qlt_bool 60 days then [winback_message] else []).

(** Two feature mappings agree on a key when both lack it or both hold
    numerically equal values under it. *)
Definition agree_on (key : string) (d1 d2 : gmap string Q) : Prop :=
  option_Forall2 Qeq (d1 !! key) (d2 !! key).

(** The whole effect of one call: the list object it creates, what it
    holds when the call ends, and whether the call returns it or stops
    at a missing key. *)
Definition recommendations_trace (t : RiskTier) (d : gmap string Q)
  : list string * option string :=
  let base := tier_base_messages t in
  match d !! "Customer_Service_Calls" with
  | None => (base, Some "Customer_Service_Calls")
  | Some calls =>
      let l1 := base ++ (if Qlt_bool 5 calls then [service_message] else []) in
      match d !! "Cart_Abandonment_Rate" with
      | None => (l1, Some "Cart_Abandonment_Rate")
      | Some cart =>
          let l2 := l1 ++ (if Qlt_bool 60 cart then [checkout_message] else []) in
          match d !! "Days_Since_Last_Purchase" with
          | None => (l2, Some "Days_Since_Last_Purchase")
          | Some days =>
              (l2 ++ (if Qlt_bool 60 days then [winback_message] else []), None)
          end
      end
  end.

(** Two calls in a row with the same arguments, both lists read after
    the second call has ended. *)
Definition recommend_twice (churn_prob : Q) (input_data : gmap string Q)
  : M (list string * list string) :=
  first ← get_recommendations churn_prob input_data;
  second ← get_recommendations churn_prob input_data;
  a ← list_read first;
  b ← list_read second;
  mret (a, b).

(** Scenario B of the specification: the form's default values with
    seven service calls, 65 % cart abandonment and 90 days since the
    last purchase. *)
Definition scenario_B : gmap string Q :=
  list_to_map
    [("Customer_Service_Calls", 7%Q); ("Lifetime_Value", 2000%Q);
     ("Cart_Abandonment_Rate", 65%Q); ("Age", 35%Q);
     ("Total_Purchases", 15%Q); ("Discount_Usage_Rate", 40%Q);
     ("Days_Since_Last_Purchase", 90%Q); ("Average_Order_Value", 120%Q);
     ("Email_Open_Rate", 25%Q); ("Session_Duration_Avg", 30%Q);
     ("Pages_Per_Session", 8%Q); ("Mobile_App_Usage", 30%Q);
     ("Returns_Rate", 5%Q); ("Login_Frequency", 15%Q);
     ("Credit_Balance", 500%Q)].

(** A world with no list objects, no files and an empty page. *)
Definition empty_world : world := World [] ∅ [].

(** ** Feature alignment *)

(** The one-row [DataFrame] built from a dict: each column label with
    its cell, in column order.  Labels are distinct throughout (dict
    keys are, and a column is only added when its label is absent). *)
Definition DataFrame : Type := list (string * Q).

Definition DataFrame_of (data : gmap string Q) : DataFrame := map_to_list data.

Definition columns (df : DataFrame) : list string := df.*1.

Definition values (df : DataFrame) : list Q := df.*2.

(** [for col in feature_names: if col not in df.columns: df[col] = 0] *)
Fixpoint fill_missing (feature_names : list string) (df : DataFrame) : DataFrame :=
  match feature_names with
  | [] => df
  | col :: rest =>
      fill_missing rest
        (if bool_decide (col ∈ columns df) then df else df ++ [(col, 0%Q)])
  end.

Fixpoint cell (df : DataFrame) (col : string) : option Q :=
  match df with
  | [] => None
  | (c, v) :: df' => if decide (c = col) then Some v else cell df' col
  end.

(** [df[feature_names]]: the listed columns in the listed order; a label
    that is not a column raises [KeyError]. *)
Definition select (df : DataFrame) (feature_names : list string) : M DataFrame :=
  mapM (fun col =>
          match cell df col with
          | Some v => mret (col, v)
          | None => raise (KeyError col)
          end) feature_names.

(** Iterating over the object stored under ['feature_names']. *)
Definition iter_names (v : value) : M (list string) :=
  match v with
  | VNames names => mret names
  | _ => raise (Raised "TypeError" "object is not iterable")
  end.

(** [scaler.transform(df)] on the object stored under ['scaler']. *)
Definition transform (scaler : value) (df : DataFrame) : M (list Q) :=
  match scaler with
  | VScaler f => call (f (values df))
  | _ => raise (Raised "AttributeError" "object has no attribute 'transform'")
  end.

Definition preprocess_input (data : gmap string Q)
    (model_package : gmap string value) : M (list Q) :=
  let df := DataFrame_of data in
  feature_names ← getitem model_package "feature_names";
  feature_names ← iter_names feature_names;
  let df := fill_missing feature_names df in
  df ← select df feature_names;
  scaler ← getitem model_package "scaler";
  transform scaler df.

(** The aligner: lines 164 to 171 of [preprocess_input], before the
    scaler is applied. *)
Definition align (data : gmap string Q) (feature_names : list string)
  : M DataFrame :=
  select (fill_missing feature_names (DataFrame_of data)) feature_names.

(** The fifteen feature names, in the order of the dict that [main]
    builds from the form (lines 348 to 364). *)
Definition form_features : list string :=
  ["Customer_Service_Calls"; "Lifetime_Value"; "Cart_Abandonment_Rate";
   "Age"; "Total_Purchases"; "Discount_Usage_Rate";
   "Days_Since_Last_Purchase"; "Average_Order_Value"; "Email_Open_Rate";
   "Session_Duration_Avg"; "Pages_Per_Session"; "Mobile_App_Usage";
   "Returns_Rate"; "Login_Frequency"; "Credit_Balance"].

(** Scenario C of the specification: a raw mapping without
    Credit_Balance and Mobile_App_Usage, and with a key the model does
    not expect. *)
Definition scenario_C : gmap string Q :=
  <["Wishlist_Items" := 4%Q]>
    (delete "Credit_Balance" (delete "Mobile_App_Usage" scenario_B)).

(** ** Loading the model package *)

Definition possible_paths : list string :=
  ["churn_model_final.pkl"; "models/churn_model_final.pkl";
   "churn_model.pkl"; "models/churn_model.pkl"].

Definition os_path_exists (path : string) : M bool :=
  fun w => (Ok (bool_decide (is_Some (files w !! path))), w).

(** [with open(path, 'rb') as f: pickle.load(f)] *)
Definition pickle_load (path : string) : M (gmap string value) :=
  fun w =>
    match files w !! path with
    | Some (inr model_package) => (Ok model_package, w)
    | Some (inl e) => (Raise e, w)
    | None => (Raise (Raised "FileNotFoundError" path), w)
    end.

(** The [for]/[break] search for the first existing path. *)
Fixpoint find_path (paths : list string) : M (option string) :=
  match paths with
  | [] => mret None
  | path :: rest =>
      found ← os_path_exists path;
      if (found : bool) then mret (Some path) else find_path rest
  end.

(** The body of [load_model]; the [st.cache_resource] decorator, which
    hands a package already returned to later runs of the script, is not
    part of it. *)
Definition load_model : M (gmap string value) :=
  model_path ← find_path possible_paths;
  match model_path with
  | None =>
      show (st_error "⚠️ 모델 파일을 찾을 수 없습니다!");;
      show (st_info "📝 다음 경로 중 하나에 모델 파일을 배치해주세요:");;
      mapM (fun path => show (st_code path)) possible_paths;;
      show (st_info "먼저 Jupyter 노트북(ecommerce_churn_training_COMPLETE.ipynb)을 실행하여 모델을 학습시켜주세요.");;
      st_stop
  | Some model_path =>
      try_except
        (model_package ← pickle_load model_path;
         show (st_success ("✅ 모델 로드 성공: " ++ model_path)%string);;
         mret model_package)
        (fun e =>
           show (st_error ("모델 로드 중 오류 발생: " ++ exn_str e)%string);;
           st_stop)
  end.

(** ** The prediction path of [main] *)

Definition predict (model : value) (x : list Q) : M (list Z) :=
  match model with
  | VModel f _ => call (f x)
  | _ => raise (Raised "AttributeError" "object has no attribute 'predict'")
  end.

Definition predict_proba (model : value) (x : list Q) : M (list (list Q)) :=
  match model with
  | VModel _ g => call (g x)
  | _ => raise (Raised "AttributeError" "object has no attribute 'predict_proba'")
  end.

(** What one submitted form yields. *)
Record result := Result {
  prediction : Z;
  churn_prob : Q;
  retain_prob : Q;
  risk_level : risk;
  recommendations : list string
}.

(** Lines 366 to 373 and 427 of [main]: the work done when the form is
    submitted.  The rendering calls and the copy of the result kept in
    the session for the other tabs are left out. *)
Definition main_predict (input_data : gmap string Q)
    (model_package : gmap string value) : M result :=
  processed_data ← preprocess_input input_data model_package;
  model ← getitem model_package "model";
  labels ← predict model processed_data;
  prediction ← index labels 0;
  probas ← predict_proba model processed_data;
  prediction_proba ← index probas 0;
  churn_prob ← index prediction_proba 1;
  retain_prob ← index prediction_proba 0;
  let risk := get_risk_level churn_prob in
  recommendations ← recommendation_list churn_prob input_data;
  mret (Result prediction churn_prob retain_prob risk recommendations).

(** [len(v)] on the object stored under ['feature_names']. *)
Definition len (v : value) : M nat :=
  match v with
  | VNames names => mret (length names)
  | _ => raise (Raised "TypeError" "object has no len()")
  end.

(** [main] up to the prediction: the package is loaded first (line 222),
    its feature names are counted for the form's header (line 284), and a
    submitted form, if any, is served. *)
Definition main (submitted : option (gmap string Q)) : M (option result) :=
  model_package ← load_model;
  feature_names ← getitem model_package "feature_names";
  n_features ← len feature_names;
  match submitted with
  | Some input_data =>
      served ← main_predict input_data model_package;
      mret (Some served)
  | None => mret None
  end.

(** ** Sample artifacts *)

(** The fields the specification calls required. *)
Definition required_fields : list string := ["feature_names"; "scaler"; "model"].

(** The first candidate path that exists, as the search loop finds it. *)
Definition first_existing (fs : gmap string pickled) : option string :=
  head (List.filter (fun path => bool_decide (is_Some (fs !! path)))
          possible_paths).

(** What [load_model] displays when no candidate path exists. *)
Definition missing_file_page : list element :=
  [st_error "⚠️ 모델 파일을 찾을 수 없습니다!";
   st_info "📝 다음 경로 중 하나에 모델 파일을 배치해주세요:";
   st_code "churn_model_final.pkl";
   st_code "models/churn_model_final.pkl";
   st_code "churn_model.pkl";
   st_code "models/churn_model.pkl";
   st_info "먼저 Jupyter 노트북(ecommerce_churn_training_COMPLETE.ipynb)을 실행하여 모델을 학습시켜주세요."].

(** A scaler that returns its input, one that rejects every input the
    way a fitted scaler rejects a row of the wrong width, and a
    classifier that always answers label 1 with churn probability 0.78. *)
Definition identity_scaler : value := VScaler (fun x => inr x).

Definition width_error : exception :=
  Raised "ValueError"
    "X has 15 features, but StandardScaler is expecting 24 features as input.".

Definition rejecting_scaler : value := VScaler (fun _ => inl width_error).

Definition constant_model : value :=
  VModel (fun _ => inr [1%Z]) (fun _ => inr [[(22#100)%Q; (78#100)%Q]]).

(** A package that unpickles but has no ['feature_names']. *)
Definition package_without_names : gmap string value :=
  <["scaler" := identity_scaler]> (<["model" := constant_model]> ∅).

(** A complete package whose scaler rejects the aligned row. *)
Definition package_rejecting : gmap string value :=
  <["feature_names" := VNames form_features]>
    (<["scaler" := rejecting_scaler]> (<["model" := constant_model]> ∅)).

(** A world whose only file is the first candidate path. *)
Definition world_with (content : pickled) : world :=
  World [] (<["churn_model_final.pkl" := content]> ∅) [].

(** ** Further parts of [main] *)

(** The order of the four levels, lowest first, as the thresholds and
    the usage guide of the source (lines 690 to 693) give it. *)
Definition tier_rank (t : RiskTier) : nat :=
  match t with
  | Low => 0
  | Moderate => 1
  | High => 2
  | Critical => 3
  end.

(** The values read from the fifteen inputs of the prediction form
    (lines 296 to 344). *)
Record form := Form {
  customer_service_calls : Q;
  cart_abandonment : Q;
  days_since_last : Q;
  returns_rate : Q;
  discount_usage : Q;
  lifetime_value : Q;
  total_purchases : Q;
  avg_order_value : Q;
  credit_balance : Q;
  age : Q;
  session_duration : Q;
  pages_per_session : Q;
  email_open_rate : Q;
  mobile_usage : Q;
  login_frequency : Q
}.

(** The dict literal [input_data] of lines 348 to 364. *)
Definition input_data (fm : form) : gmap string Q :=
  list_to_map
    [("Customer_Service_Calls", customer_service_calls fm);
     ("Lifetime_Value", lifetime_value fm);
     ("Cart_Abandonment_Rate", cart_abandonment fm);
     ("Age", age fm);
     ("Total_Purchases", total_purchases fm);
     ("Discount_Usage_Rate", discount_usage fm);
     ("Days_Since_Last_Purchase", days_since_last fm);
     ("Average_Order_Value", avg_order_value fm);
     ("Email_Open_Rate", email_open_rate fm);
     ("Session_Duration_Avg", session_duration fm);
     ("Pages_Per_Session", pages_per_session fm);
     ("Mobile_App_Usage", mobile_usage fm);
     ("Returns_Rate", returns_rate fm);
     ("Login_Frequency", login_frequency fm);
     ("Credit_Balance", credit_balance fm)].

(** What the preview below the prediction writes: page elements, and
    the caption that [element] has no constructor for. *)
Inductive widget :=
| Element (e : element)
| st_caption (text : string).

(** Lines 428 to 431 of [main]: the first three recommendations,
    numbered from 1, and a caption when there are more. *)
Definition quick_recommendations (recommendations : list string)
  : list widget :=
  imap (fun i rec =>
          Element (st_info (pretty (S i) ++ ". " ++ rec)%string))
       (take 3 recommendations) ++
  (if decide (3 < length recommendations)
   then [st_caption "더 많은 추천은 '💡 맞춤 추천' 탭에서 확인하세요."]
   else []).

(** Two calls in a row, then an append to the first list returned, then
    both lists read. *)
Definition append_to_first (churn_prob : Q) (d : gmap string Q)
    (s : string) : M (list string * list string) :=
  first ← get_recommendations churn_prob d;
  second ← get_recommendations churn_prob d;
  list_append first s;;
  a ← list_read first;
  b ← list_read second;
  mret (a, b).

(** A world in which the first candidate file is missing, the second is
    corrupt and the third holds a complete package. *)
Definition world_corrupt_second : world :=
  World []
    (<["models/churn_model_final.pkl" :=
         inl (Raised "UnpicklingError" "invalid load key, 'x'.")]>
       (<["churn_model.pkl" :=
            inr (<["feature_names" := VNames form_features]>
                   package_without_names)]> ∅))
    [].

(** A complete package with a working scaler and classifier. *)
Definition package_complete : gmap string value :=
  <["feature_names" := VNames form_features]> package_without_names.

(** A package with names and a scaler, but no classifier. *)
Definition package_without_model : gmap string value :=
  <["feature_names" := VNames form_features]>
    (<["scaler" := identity_scaler]> ∅).

(** The default values of the form. *)
Definition default_form : form :=
  {| customer_service_calls := 3; cart_abandonment := 50;
     days_since_last := 30; returns_rate := 5; discount_usage := 40;
     lifetime_value := 2000; total_purchases := 15;
     avg_order_value := 120; credit_balance := 500; age := 35;
     session_duration := 30; pages_per_session := 8;
     email_open_rate := 25; mobile_usage := 30; login_frequency := 15 |}.

(** * Properties *)

(** ** Numbers *)

Lemma Qlt_bool_iff (x y : Q) : Qlt_bool x y = true <-> (x < y)%Q.
Proof.
  unfold Qlt_bool. rewrite negb_true_iff, <- not_true_iff_false, Qle_bool_iff.
  split; [apply Qnot_le_lt | apply Qlt_not_le].
Qed.

Lemma Qle_bool_false_iff (x y : Q) : Qle_bool x y = false <-> (y < x)%Q.
Proof.
  rewrite <- not_true_iff_false, Qle_bool_iff.
  split; [apply Qnot_le_lt | apply Qlt_not_le].
Qed.

(** ** The risk tiers *)

Lemma tier_risk_level_inj (t u : RiskTier) :
  level (tier_risk t) = level (tier_risk u) -> t = u.
Proof. destruct t, u; simpl; intros H; try reflexivity; discriminate H. Qed.

Lemma tier_risk_inj (t u : RiskTier) : tier_risk t = tier_risk u -> t = u.
Proof. intros H. apply tier_risk_level_inj. now rewrite H. Qed.

Lemma tier_cases (p : Q) : exists t, tier_case p t.
Proof.
  destruct (Qle_bool (7#10) p) eqn:H7.
  { exists Critical. constructor; [done | by apply Qle_bool_iff]. }
  destruct (Qle_bool (5#10) p) eqn:H5.
  { exists High. constructor; try done;
      [by apply Qle_bool_iff | by apply Qle_bool_false_iff]. }
  destruct (Qle_bool (3#10) p) eqn:H3.
  { exists Moderate. constructor; try done;
      [by apply Qle_bool_iff | by apply Qle_bool_false_iff]. }
  exists Low. constructor; try done. by apply Qle_bool_false_iff.
Qed.

Lemma get_risk_level_case (p : Q) (t : RiskTier) :
  tier_case p t -> get_risk_level p = tier_risk t.
Proof.
  unfold get_risk_level.
  destruct 1 as [H7 _|H7 H5 _ _|H7 H5 H3 _ _|H7 H5 H3 _];
    rewrite ?H7, ?H5, ?H3; reflexivity.
Qed.

Lemma tier_case_bounds (p : Q) (t : RiskTier) :
  tier_case p t ->
  match t with
  | Critical => (7#10 <= p)%Q
  | High => (5#10 <= p)%Q /\ (p < 7#10)%Q
  | Moderate => (3#10 <= p)%Q /\ (p < 5#10)%Q
  | Low => (p < 3#10)%Q
  end.
Proof. destruct 1; auto. Qed.

Lemma get_risk_level_tier (p : Q) (t : RiskTier) :
  get_risk_level p = tier_risk t <-> tier_case p t.
Proof.
  split; [|apply get_risk_level_case].
  intros H. destruct (tier_cases p) as [u Hu].
  rewrite (get_risk_level_case p u Hu) in H.
  by rewrite <- (tier_risk_inj _ _ H).
Qed.

Lemma tier_case_of_bounds (p : Q) (t : RiskTier) :
  match t with
  | Critical => (7#10 <= p)%Q
  | High => (5#10 <= p)%Q /\ (p < 7#10)%Q
  | Moderate => (3#10 <= p)%Q /\ (p < 5#10)%Q
  | Low => (p < 3#10)%Q
  end -> tier_case p t.
Proof.
  intros Hb. destruct (tier_cases p) as [u Hu].
  pose proof (tier_case_bounds p u Hu) as Hc.
  assert (t = u) as ->; [|done].
  destruct t, u; try reflexivity; exfalso;
    repeat match goal with H : _ /\ _ |- _ => destruct H end;
    repeat match goal with
      | H1 : (?a <= p)%Q, H2 : (p < ?b)%Q |- _ =>
          pose proof (Qle_lt_trans _ _ _ H1 H2) as Habs;
          revert Habs; clear; unfold Qlt; simpl; lia
      end.
Qed.

(** C1: the risk-tier mapping is the step function with inclusive lower
    bounds taken from the top: a probability is Critical exactly when it
    is at least 0.70, High exactly when it lies in [0.50, 0.70), Moderate
    exactly when it lies in [0.30, 0.50), and Low exactly when it is
    below 0.30; 0.70, 0.50 and 0.30 themselves are Critical, High and
    Moderate. *)
Theorem risk_tier_step_function (p : Q) :
  (get_risk_level p = tier_risk Critical <-> (7#10 <= p)%Q) /\
  (get_risk_level p = tier_risk High <-> (5#10 <= p)%Q /\ (p < 7#10)%Q) /\
  (get_risk_level p = tier_risk Moderate <-> (3#10 <= p)%Q /\ (p < 5#10)%Q) /\
  (get_risk_level p = tier_risk Low <-> (p < 3#10)%Q) /\
  get_risk_level (70#100) = tier_risk Critical /\
  get_risk_level (50#100) = tier_risk High /\
  get_risk_level (30#100) = tier_risk Moderate.
Proof.
  assert (forall t, get_risk_level p = tier_risk t <->
    match t with
    | Critical => (7#10 <= p)%Q
    | High => (5#10 <= p)%Q /\ (p < 7#10)%Q
    | Moderate => (3#10 <= p)%Q /\ (p < 5#10)%Q
    | Low => (p < 3#10)%Q
    end) as Hstep.
  { intros t. rewrite get_risk_level_tier.
    split; [apply tier_case_bounds | apply tier_case_of_bounds]. }
  split; [apply (Hstep Critical)|].
  split; [apply (Hstep High)|].
  split; [apply (Hstep Moderate)|].
  split; [apply (Hstep Low)|].
  repeat split; reflexivity.
Qed.

(** C10: the mapping is total over all rationals: every probability has
    exactly one tier; anything from 0.7 upwards, values above 1 included,
    is Critical, and anything below 0.3, negative values included, is
    Low. *)
Theorem risk_tier_total (p : Q) :
  (exists t, get_risk_level p = tier_risk t /\
             forall u, get_risk_level p = tier_risk u -> u = t) /\
  ((7#10 <= p)%Q -> get_risk_level p = tier_risk Critical) /\
  ((1 < p)%Q -> get_risk_level p = tier_risk Critical) /\
  ((p < 3#10)%Q -> get_risk_level p = tier_risk Low) /\
  ((p < 0)%Q -> get_risk_level p = tier_risk Low).
Proof.
  split; [|repeat split].
  - destruct (tier_cases p) as [t Ht]. exists t.
    rewrite (get_risk_level_case p t Ht). split; [done|].
    intros u Hu. by apply tier_risk_inj.
  - intros H. apply get_risk_level_case, (tier_case_of_bounds p Critical), H.
  - intros H. apply get_risk_level_case, (tier_case_of_bounds p Critical).
    apply Qlt_le_weak, Qlt_trans with (y := 1%Q); [reflexivity | exact H].
  - intros H. apply get_risk_level_case, (tier_case_of_bounds p Low), H.
  - intros H. apply get_risk_level_case, (tier_case_of_bounds p Low).
    apply Qlt_trans with (y := 0%Q); [exact H | reflexivity].
Qed.

Lemma risk_tier_total_witness :
  get_risk_level (3#2) = tier_risk Critical /\
  get_risk_level (-1#2) = tier_risk Low.
Proof.
  split.
  - apply (risk_tier_total (3#2)). reflexivity.
  - apply (risk_tier_total (-1#2)). reflexivity.
Defined.

(** ** Running the monad *)

Lemma run_bind {A B} (m : M A) (f : A -> M B) (w : world) :
  (m ≫= f) w =
  match m w with
  | (Ok a, w') => f a w'
  | (Raise e, w') => (Raise e, w')
  | (Stop, w') => (Stop, w')
  end.
Proof. reflexivity. Qed.

Lemma run_ret {A} (a : A) (w : world) : (mret a : M A) w = (Ok a, w).
Proof. reflexivity. Qed.

Lemma run_getitem_Some {V} (d : gmap string V) key v (w : world) :
  d !! key = Some v -> getitem d key w = (Ok v, w).
Proof. unfold getitem. by intros ->. Qed.

Lemma run_getitem_None {V} (d : gmap string V) key (w : world) :
  d !! key = None -> getitem d key w = (Raise (KeyError key), w).
Proof. unfold getitem. by intros ->. Qed.

Lemma run_new_list (w : world) :
  new_list w = (Ok (length (heap w)), set_heap (heap w ++ [[]]) w).
Proof. reflexivity. Qed.

(** Appending to the list object allocated last. *)
Lemma run_list_append_last h xs s (w : world) :
  list_append (length h) s (set_heap (h ++ [xs]) w) =
  (Ok tt, set_heap (h ++ [xs ++ [s]]) w).
Proof.
  unfold list_append. cbn [heap set_heap].
  rewrite list_lookup_middle by done.
  f_equal. unfold set_heap. cbn [heap files page]. f_equal.
  rewrite <- (Nat.add_0_r (length h)). by rewrite insert_app_r.
Qed.

Lemma run_list_read_last h xs (w : world) :
  list_read (length h) (set_heap (h ++ [xs]) w) =
  (Ok xs, set_heap (h ++ [xs]) w).
Proof.
  unfold list_read. cbn [heap set_heap].
  by rewrite list_lookup_middle.
Qed.

(** ** The recommendation engine *)

Lemma get_recommendations_run (p : Q) (t : RiskTier) (d : gmap string Q)
    (w : world) :
  tier_case p t ->
  get_recommendations p d w =
  (match (recommendations_trace t d).2 with
   | None => Ok (length (heap w))
   | Some key => Raise (KeyError key)
   end,
   set_heap (heap w ++ [(recommendations_trace t d).1]) w).
Proof.
  intros Ht. unfold get_recommendations, recommendations_trace.
  rewrite run_bind, run_new_list, run_bind.
  destruct Ht as [H7 _|H7 H5 _ _|H7 H5 H3 _ _|H7 H5 H3 _];
    rewrite ?H7, ?H5, ?H3;
    rewrite run_bind, !run_list_append_last;
    cbn [app tier_base_messages];
    repeat first
      [ rewrite run_bind
      | rewrite run_list_append_last
      | rewrite run_ret
      | progress unfold getitem
      | match goal with
        | |- context [d !! ?key] => destruct (d !! key); [|reflexivity]
        | |- context [Qlt_bool ?a ?b] => destruct (Qlt_bool a b)
        end ];
    cbn [fst snd]; rewrite ?app_nil_r; reflexivity.
Qed.

Lemma recommendation_list_run (p : Q) (t : RiskTier) (d : gmap string Q)
    (w : world) :
  tier_case p t ->
  recommendation_list p d w =
  (match (recommendations_trace t d).2 with
   | None => Ok (recommendations_trace t d).1
   | Some key => Raise (KeyError key)
   end,
   set_heap (heap w ++ [(recommendations_trace t d).1]) w).
Proof.
  intros Ht. unfold recommendation_list.
  rewrite run_bind, (get_recommendations_run p t d w Ht).
  destruct (recommendations_trace t d).2; [reflexivity|].
  apply run_list_read_last.
Qed.

Lemma recommendations_trace_present (t : RiskTier) (d : gmap string Q)
    (calls cart days : Q) :
  d !! "Customer_Service_Calls" = Some calls ->
  d !! "Cart_Abandonment_Rate" = Some cart ->
  d !! "Days_Since_Last_Purchase" = Some days ->
  recommendations_trace t d =
  (tier_base_messages t ++ supplementary calls cart days, None).
Proof.
  intros H1 H2 H3. unfold recommendations_trace, supplementary.
  rewrite H1, H2, H3. by rewrite <- !app_assoc.
Qed.

Lemma scenario_B_lookups :
  scenario_B !! "Customer_Service_Calls" = Some 7%Q /\
  scenario_B !! "Cart_Abandonment_Rate" = Some 65%Q /\
  scenario_B !! "Days_Since_Last_Purchase" = Some 90%Q.
Proof. repeat split; vm_compute; reflexivity. Qed.

Lemma Qlt_bool_Qeq (a x y : Q) : (x == y)%Q -> Qlt_bool a x = Qlt_bool a y.
Proof.
  intros Hxy. apply eq_true_iff_eq. rewrite !Qlt_bool_iff. by rewrite Hxy.
Qed.

Ltac decide_elem_of :=
  match goal with
  | H : _ ∈ _ |- _ =>
      apply (bool_decide_pack _) in H; vm_compute in H; destruct H
  | |- _ ∈ _ => apply (bool_decide_unpack _); vm_compute; exact I
  | |- sublist _ _ =>
      cbn [app];
      repeat first [apply sublist_nil | apply sublist_skip | apply sublist_cons]
  end.

Lemma supplementary_sublist (calls cart days : Q) :
  sublist (supplementary calls cart days) supplementary_messages.
Proof.
  unfold supplementary, supplementary_messages.
  destruct (Qlt_bool 5 calls), (Qlt_bool 60 cart), (Qlt_bool 60 days);
    decide_elem_of.
Qed.

Lemma supplementary_fires (calls cart days : Q) :
  (service_message ∈ supplementary calls cart days <-> (5 < calls)%Q) /\
  (checkout_message ∈ supplementary calls cart days <-> (60 < cart)%Q) /\
  (winback_message ∈ supplementary calls cart days <-> (60 < days)%Q).
Proof.
  rewrite <- !Qlt_bool_iff. unfold supplementary.
  destruct (Qlt_bool 5 calls), (Qlt_bool 60 cart), (Qlt_bool 60 days);
    repeat split; intros H; try reflexivity; try discriminate H;
    decide_elem_of.
Qed.

Lemma supplementary_not_base (calls cart days : Q) :
  Forall (fun s => is_base_message s = false) (supplementary calls cart days).
Proof.
  unfold supplementary.
  destruct (Qlt_bool 5 calls), (Qlt_bool 60 cart), (Qlt_bool 60 days);
    repeat constructor.
Qed.

Lemma trace_base_messages (t : RiskTier) (d : gmap string Q) :
  List.filter is_base_message (recommendations_trace t d).1 =
    tier_base_messages t /\
  take 2 (recommendations_trace t d).1 = tier_base_messages t.
Proof.
  unfold recommendations_trace.
  repeat match goal with
    | |- context [d !! ?key] => destruct (d !! key)
    | |- context [Qlt_bool ?a ?b] => destruct (Qlt_bool a b)
    end; destruct t; split; vm_compute; reflexivity.
Qed.

Lemma tier_case_of_risk (p : Q) (t : RiskTier) :
  get_risk_level p = tier_risk t -> tier_case p t.
Proof. apply get_risk_level_tier. Qed.

Lemma trace_agree (t : RiskTier) (d1 d2 : gmap string Q) :
  agree_on "Customer_Service_Calls" d1 d2 ->
  agree_on "Cart_Abandonment_Rate" d1 d2 ->
  agree_on "Days_Since_Last_Purchase" d1 d2 ->
  recommendations_trace t d1 = recommendations_trace t d2.
Proof.
  unfold agree_on, recommendations_trace.
  intros [calls1 calls2 Hcalls|]; [|reflexivity].
  rewrite (Qlt_bool_Qeq 5 _ _ Hcalls).
  intros [cart1 cart2 Hcart|]; [|reflexivity].
  rewrite (Qlt_bool_Qeq 60 _ _ Hcart).
  intros [days1 days2 Hdays|]; [|reflexivity].
  by rewrite (Qlt_bool_Qeq 60 _ _ Hdays).
Qed.

(** C3: whatever the features, the list a call builds holds exactly the
    two base messages of the probability's tier, on every call, and when
    the three checked keys are present that list is the call's output. *)
Theorem base_messages_invariant (t : RiskTier) (p : Q) (d : gmap string Q)
    (w : world) :
  get_risk_level p = tier_risk t ->
  exists l,
    (get_recommendations p d w).2 = set_heap (heap w ++ [l]) w /\
    List.filter is_base_message l = tier_base_messages t /\
    (is_Some (d !! "Customer_Service_Calls") ->
     is_Some (d !! "Cart_Abandonment_Rate") ->
     is_Some (d !! "Days_Since_Last_Purchase") ->
     (recommendation_list p d w).1 = Ok l).
Proof.
  intros Ht%tier_case_of_risk.
  exists (recommendations_trace t d).1. split; [|split].
  - by rewrite (get_recommendations_run p t d w Ht).
  - apply trace_base_messages.
  - intros [calls H1] [cart H2] [days H3].
    rewrite (recommendation_list_run p t d w Ht).
    by rewrite (recommendations_trace_present t d calls cart days).
Qed.

Lemma base_messages_invariant_witness :
  exists l,
    (get_recommendations (78#100) scenario_B empty_world).2 =
      set_heap (heap empty_world ++ [l]) empty_world /\
    List.filter is_base_message l = tier_base_messages Critical /\
    (is_Some (scenario_B !! "Customer_Service_Calls") ->
     is_Some (scenario_B !! "Cart_Abandonment_Rate") ->
     is_Some (scenario_B !! "Days_Since_Last_Purchase") ->
     (recommendation_list (78#100) scenario_B empty_world).1 = Ok l).
Proof.
  apply (base_messages_invariant Critical (78#100) scenario_B empty_world).
  reflexivity.
Defined.

(** C4: with the three checked keys present, the output is the tier's two
    base messages followed by supplementary messages in the fixed order
    service, checkout, win-back, each present exactly when its feature
    strictly exceeds its threshold (5 calls, 60 %, 60 days); scenario B
    is Critical and yields the two Critical base messages followed by all
    three supplementary messages in that order. *)
Theorem supplementary_rules_fixed_order :
  (forall (t : RiskTier) (p : Q) (d : gmap string Q) (calls cart days : Q)
          (w : world),
      get_risk_level p = tier_risk t ->
      d !! "Customer_Service_Calls" = Some calls ->
      d !! "Cart_Abandonment_Rate" = Some cart ->
      d !! "Days_Since_Last_Purchase" = Some days ->
      exists l,
        (recommendation_list p d w).1 = Ok (tier_base_messages t ++ l) /\
        sublist l supplementary_messages /\
        (service_message ∈ l <-> (5 < calls)%Q) /\
        (checkout_message ∈ l <-> (60 < cart)%Q) /\
        (winback_message ∈ l <-> (60 < days)%Q)) /\
  get_risk_level (78#100) = tier_risk Critical /\
  (forall w : world,
      (recommendation_list (78#100) scenario_B w).1 =
      Ok (tier_base_messages Critical ++
          [service_message; checkout_message; winback_message])).
Proof.
  split; [|split; [reflexivity|]].
  - intros t p d calls cart days w Ht%tier_case_of_risk H1 H2 H3.
    exists (supplementary calls cart days).
    rewrite (recommendation_list_run p t d w Ht).
    rewrite (recommendations_trace_present t d calls cart days H1 H2 H3).
    split; [reflexivity|]. split; [apply supplementary_sublist|].
    apply supplementary_fires.
  - intros w.
    assert (tier_case (78#100) Critical) as Ht
      by (by apply tier_case_of_risk).
    rewrite (recommendation_list_run _ _ scenario_B w Ht).
    destruct scenario_B_lookups as (H1 & H2 & H3).
    by rewrite (recommendations_trace_present _ _ _ _ _ H1 H2 H3).
Qed.

Lemma supplementary_rules_fixed_order_witness :
  exists l,
    (recommendation_list (42#100) (<["Customer_Service_Calls" := 3%Q]>
       (<["Cart_Abandonment_Rate" := 65%Q]>
          (<["Days_Since_Last_Purchase" := 30%Q]> ∅))) empty_world).1 =
      Ok (tier_base_messages Moderate ++ l) /\
    sublist l supplementary_messages /\
    (service_message ∈ l <-> (5 < 3)%Q) /\
    (checkout_message ∈ l <-> (60 < 65)%Q) /\
    (winback_message ∈ l <-> (60 < 30)%Q).
Proof.
  apply (proj1 supplementary_rules_fixed_order Moderate); reflexivity.
Defined.

Lemma recommend_twice_run (p : Q) (t : RiskTier) (d : gmap string Q)
    (w : world) :
  tier_case p t ->
  (recommend_twice p d w).1 =
  match (recommendations_trace t d).2 with
  | None => Ok ((recommendations_trace t d).1, (recommendations_trace t d).1)
  | Some key => Raise (KeyError key)
  end.
Proof.
  intros Ht. unfold recommend_twice.
  rewrite run_bind, (get_recommendations_run p t d w Ht).
  destruct (recommendations_trace t d) as [l [key|]] eqn:Htrace;
    cbn [fst snd]; [reflexivity|].
  rewrite run_bind, (get_recommendations_run p t d _ Ht), Htrace.
  cbn [fst snd heap set_heap].
  rewrite run_bind. unfold list_read at 1. cbn [heap set_heap].
  rewrite lookup_app_l by (rewrite length_app; simpl; lia).
  rewrite list_lookup_middle by done.
  rewrite run_bind.
  replace (set_heap ((heap w ++ [l]) ++ [l]) (set_heap (heap w ++ [l]) w))
    with (set_heap ((heap w ++ [l]) ++ [l]) w) by reflexivity.
  by rewrite run_list_read_last.
Qed.

(** C7: the recommendation engine is deterministic: the list returned
    for a probability and a feature mapping is the same in every world,
    two calls in a row return equal lists (or raise the same error), and
    a call changes neither the files, nor the page, nor any list object
    that existed before it. *)
Theorem recommendations_deterministic (p : Q) (d : gmap string Q)
    (w1 w2 : world) :
  (recommendation_list p d w1).1 = (recommendation_list p d w2).1 /\
  match (recommend_twice p d w1).1 with
  | Ok (a, b) => a = b /\ (recommendation_list p d w1).1 = Ok a
  | Raise e => (recommendation_list p d w1).1 = Raise e
  | Stop => False
  end /\
  files (recommendation_list p d w1).2 = files w1 /\
  page (recommendation_list p d w1).2 = page w1 /\
  take (length (heap w1)) (heap (recommendation_list p d w1).2) = heap w1.
Proof.
  destruct (tier_cases p) as [t Ht].
  rewrite (recommend_twice_run p t d w1 Ht).
  rewrite !(recommendation_list_run p t d _ Ht).
  cbn [fst snd files page heap set_heap].
  split; [reflexivity|]. split; [|split; [reflexivity|split; [reflexivity|]]].
  - by destruct (recommendations_trace t d).2.
  - by rewrite take_app_length.
Qed.

(** C8: with the three checked keys present, the list has between two
    and five elements, its first two are the tier's base messages, and
    what follows them are supplementary messages only. *)
Theorem recommendation_list_shape (p : Q) (d : gmap string Q) (w : world) :
  is_Some (d !! "Customer_Service_Calls") ->
  is_Some (d !! "Cart_Abandonment_Rate") ->
  is_Some (d !! "Days_Since_Last_Purchase") ->
  exists t l,
    get_risk_level p = tier_risk t /\
    (recommendation_list p d w).1 = Ok l /\
    2 <= length l <= 5 /\
    take 2 l = tier_base_messages t /\
    sublist (drop 2 l) supplementary_messages /\
    Forall (fun s => is_base_message s = false) (drop 2 l).
Proof.
  intros [calls H1] [cart H2] [days H3].
  destruct (tier_cases p) as [t Ht].
  exists t, (tier_base_messages t ++ supplementary calls cart days).
  split; [by apply get_risk_level_case|].
  rewrite (recommendation_list_run p t d w Ht).
  rewrite (recommendations_trace_present t d calls cart days H1 H2 H3).
  split; [reflexivity|].
  assert (length (tier_base_messages t) = 2) as Hlen by (by destruct t).
  pose proof (sublist_length _ _ (supplementary_sublist calls cart days)) as Hs.
  change (length supplementary_messages) with 3 in Hs.
  split; [rewrite length_app; lia|].
  assert (take 2 (tier_base_messages t ++ supplementary calls cart days)
          = tier_base_messages t) as ->
    by (rewrite <- Hlen; apply take_app_length).
  assert (drop 2 (tier_base_messages t ++ supplementary calls cart days)
          = supplementary calls cart days) as ->
    by (rewrite <- Hlen; apply drop_app_length).
  split; [reflexivity|].
  split; [apply supplementary_sublist | apply supplementary_not_base].
Qed.

Lemma recommendation_list_shape_witness :
  exists t l,
    get_risk_level (78#100) = tier_risk t /\
    (recommendation_list (78#100) scenario_B empty_world).1 = Ok l /\
    2 <= length l <= 5 /\
    take 2 l = tier_base_messages t /\
    sublist (drop 2 l) supplementary_messages /\
    Forall (fun s => is_base_message s = false) (drop 2 l).
Proof.
  apply (recommendation_list_shape (78#100) scenario_B empty_world).
  - by eexists; apply scenario_B_lookups.
  - by eexists; apply scenario_B_lookups.
  - by eexists; apply scenario_B_lookups.
Defined.

(** C9: the outcome depends only on the probability and the three
    checked features: two feature mappings that agree on
    Customer_Service_Calls, Cart_Abandonment_Rate and
    Days_Since_Last_Purchase give the same list (or the same error) for
    the same probability, whatever their other entries and whatever the
    world. *)
Theorem recommendations_depend_on_checked_features (p : Q)
    (d1 d2 : gmap string Q) (w1 w2 : world) :
  agree_on "Customer_Service_Calls" d1 d2 ->
  agree_on "Cart_Abandonment_Rate" d1 d2 ->
  agree_on "Days_Since_Last_Purchase" d1 d2 ->
  (recommendation_list p d1 w1).1 = (recommendation_list p d2 w2).1.
Proof.
  intros H1 H2 H3. destruct (tier_cases p) as [t Ht].
  rewrite !(recommendation_list_run p t _ _ Ht).
  by rewrite (trace_agree t d1 d2 H1 H2 H3).
Qed.

Lemma recommendations_depend_on_checked_features_witness :
  (recommendation_list (78#100) scenario_B empty_world).1 =
  (recommendation_list (78#100)
     (<["Age" := 50%Q]> (<["Customer_Service_Calls" := (14#2)%Q]> scenario_B))
     empty_world).1.
Proof.
  apply recommendations_depend_on_checked_features;
    unfold agree_on; vm_compute; constructor; reflexivity.
Defined.

(** ** Feature alignment *)

Lemma cell_None (df : DataFrame) (col : string) :
  cell df col = None <-> col ∉ columns df.
Proof.
  unfold columns. induction df as [|[c v] df IH]; simpl.
  - split; [intros _; apply not_elem_of_nil | done].
  - rewrite not_elem_of_cons. destruct (decide (c = col)) as [->|Hne].
    + split; [done | intros [[] _]; done].
    + rewrite IH. split; [done | tauto].
Qed.

Lemma cell_app (df1 df2 : DataFrame) (col : string) :
  cell (df1 ++ df2) col =
  match cell df1 col with Some v => Some v | None => cell df2 col end.
Proof.
  induction df1 as [|[c v] df1 IH]; simpl; [done|].
  by destruct (decide (c = col)).
Qed.

Lemma cell_DataFrame_of (data : gmap string Q) (col : string) :
  cell (DataFrame_of data) col = data !! col.
Proof.
  unfold DataFrame_of.
  pose proof (NoDup_fst_map_to_list data) as Hnd.
  assert (forall v, (col, v) ∈ map_to_list data <-> data !! col = Some v) as Hin
    by (intros v; apply elem_of_map_to_list).
  revert Hnd Hin. generalize (map_to_list data) (data !! col).
  intros df o. induction df as [|[c v] df IH]; simpl; intros Hnd Hin.
  - destruct o as [v|]; [|done].
    exfalso. apply (elem_of_nil (col, v)). by apply Hin.
  - apply NoDup_cons in Hnd as [Hc Hnd].
    destruct (decide (c = col)) as [->|Hne].
    + symmetry. apply Hin. by left.
    + apply IH; [done|]. intros v'. rewrite <- Hin, elem_of_cons.
      split; [by right | intros [[=]|]; done].
Qed.

Lemma cell_fill_missing_Some (names : list string) (df : DataFrame) col v :
  cell df col = Some v -> cell (fill_missing names df) col = Some v.
Proof.
  revert df. induction names as [|name names IH]; simpl; intros df H; [done|].
  apply IH. case_bool_decide; [done|]. by rewrite cell_app, H.
Qed.

Lemma cell_fill_missing (names : list string) (df : DataFrame) col :
  col ∈ names ->
  cell (fill_missing names df) col = Some (default 0%Q (cell df col)).
Proof.
  revert df. induction names as [|name names IH]; simpl; intros df Hin.
  - by apply elem_of_nil in Hin.
  - destruct (cell df col) as [v|] eqn:Hcell; simpl.
    + apply cell_fill_missing_Some. case_bool_decide; [done|].
      by rewrite cell_app, Hcell.
    + apply elem_of_cons in Hin as [->|Hin].
      * apply cell_fill_missing_Some.
        rewrite bool_decide_eq_false_2 by (by apply cell_None).
        rewrite cell_app, Hcell. simpl. by rewrite decide_True.
      * case_bool_decide as Hname.
        { by rewrite (IH df Hin), Hcell. }
        destruct (decide (name = col)) as [->|Hne].
        { apply cell_fill_missing_Some. rewrite cell_app, Hcell. simpl.
          by rewrite decide_True. }
        rewrite (IH _ Hin), cell_app, Hcell. simpl.
        by rewrite decide_False.
Qed.

Lemma run_select (df : DataFrame) (g : string -> Q) (names : list string)
    (w : world) :
  (forall col, col ∈ names -> cell df col = Some (g col)) ->
  select df names w = (Ok (map (fun col => (col, g col)) names), w).
Proof.
  unfold select. induction names as [|name names IH]; intros Hcell.
  - reflexivity.
  - cbn [mapM map]. rewrite run_bind, (Hcell name) by left.
    rewrite run_ret, run_bind, IH; [reflexivity|].
    intros col Hcol. apply Hcell. by right.
Qed.

(** The dense vector the aligner hands on: one entry per expected name,
    the raw value when the name is a key and 0 otherwise. *)
Lemma run_align (data : gmap string Q) (names : list string) (w : world) :
  align data names w =
  (Ok (map (fun col => (col, default 0%Q (data !! col))) names), w).
Proof.
  unfold align. apply run_select. intros col Hcol.
  by rewrite (cell_fill_missing names _ col Hcol), cell_DataFrame_of.
Qed.

Lemma run_call {A} (r : exception + A) (w : world) :
  call r w = (match r with inl e => Raise e | inr a => Ok a end, w).
Proof. by destruct r. Qed.

Lemma run_preprocess_input (data : gmap string Q)
    (model_package : gmap string value) (names : list string)
    (f : list Q -> exception + list Q) (w : world) :
  model_package !! "feature_names" = Some (VNames names) ->
  model_package !! "scaler" = Some (VScaler f) ->
  preprocess_input data model_package w =
  call (f (map (fun col => default 0%Q (data !! col)) names)) w.
Proof.
  intros Hnames Hscaler. unfold preprocess_input.
  rewrite run_bind, (run_getitem_Some _ _ _ _ Hnames).
  rewrite run_bind. cbn [iter_names]. rewrite run_ret.
  rewrite run_bind. fold (align data names). rewrite run_align.
  rewrite run_bind, (run_getitem_Some _ _ _ _ Hscaler).
  unfold transform, values. by rewrite <- list_fmap_compose.
Qed.

(** C2: for every raw mapping and every list of expected names, the
    aligner returns, without failing, a row with exactly those columns
    in that order, whose i-th value is the raw value under the i-th name
    when the raw mapping has that key and 0 otherwise; raw mappings that
    agree on the expected names give the same row; and this row is what
    [preprocess_input] passes to the scaler. *)
Theorem align_dense_vector (data : gmap string Q) (feature_names : list string)
    (w : world) :
  exists df,
    align data feature_names w = (Ok df, w) /\
    length (values df) = length feature_names /\
    columns df = feature_names /\
    (forall i name, feature_names !! i = Some name ->
       values df !! i =
       Some (match data !! name with Some v => v | None => 0%Q end)) /\
    (forall data' : gmap string Q,
       (forall name, name ∈ feature_names -> data' !! name = data !! name) ->
       align data' feature_names w = (Ok df, w)) /\
    (forall (model_package : gmap string value) f,
       model_package !! "feature_names" = Some (VNames feature_names) ->
       model_package !! "scaler" = Some (VScaler f) ->
       preprocess_input data model_package w = call (f (values df)) w).
Proof.
  exists (map (fun col => (col, default 0%Q (data !! col))) feature_names).
  split; [apply run_align|].
  unfold values, columns. rewrite <- !list_fmap_compose.
  split; [apply length_fmap|].
  split; [apply list_fmap_id|].
  split; [|split].
  - intros i name Hi. rewrite list_lookup_fmap, Hi. reflexivity.
  - intros data' Hagree. rewrite run_align. do 2 f_equal.
    apply list_fmap_ext. intros i name Hname%list_elem_of_lookup_2. simpl.
    by rewrite (Hagree name Hname).
  - intros model_package f Hnames Hscaler.
    by rewrite (run_preprocess_input _ _ _ _ _ Hnames Hscaler).
Qed.

Lemma align_dense_vector_witness :
  exists df,
    align scenario_C form_features empty_world = (Ok df, empty_world) /\
    length (values df) = 15 /\
    values df !! 0 = Some 7%Q /\
    values df !! 11 = Some 0%Q /\
    values df !! 14 = Some 0%Q.
Proof.
  destruct (align_dense_vector scenario_C form_features empty_world)
    as (df & Hrun & Hlen & _ & Hval & _).
  exists df. split; [exact Hrun|]. split; [exact Hlen|].
  split; [|split].
  - etransitivity;
      [apply (Hval 0 "Customer_Service_Calls"); reflexivity
      |vm_compute; reflexivity].
  - etransitivity;
      [apply (Hval 11 "Mobile_App_Usage"); reflexivity
      |vm_compute; reflexivity].
  - etransitivity;
      [apply (Hval 14 "Credit_Balance"); reflexivity
      |vm_compute; reflexivity].
Defined.

(** ** Loading *)

Lemma run_find_path (paths : list string) (w : world) :
  find_path paths w =
  (Ok (head (List.filter (fun path => bool_decide (is_Some (files w !! path)))
               paths)), w).
Proof.
  induction paths as [|path paths IH]; [reflexivity|].
  cbn [find_path List.filter]. rewrite run_bind. unfold os_path_exists.
  destruct (bool_decide (is_Some (files w !! path))); [reflexivity | apply IH].
Qed.

Lemma first_existing_Some (fs : gmap string pickled) (path : string) :
  first_existing fs = Some path -> is_Some (fs !! path).
Proof.
  unfold first_existing. intros Hhead%head_Some_elem_of.
  apply list_elem_of_In, List.filter_In in Hhead as [_ Hpath].
  by apply bool_decide_eq_true in Hpath.
Qed.

Lemma run_show (e : element) (w : world) :
  show e w = (Ok tt, set_page (page w ++ [e]) w).
Proof. reflexivity. Qed.

(** The three ways a call of [load_model] can end. *)
Lemma run_load_model (w : world) :
  load_model w =
  match first_existing (files w) with
  | None => (Stop, set_page (page w ++ missing_file_page) w)
  | Some path =>
      match files w !! path with
      | Some (inr model_package) =>
          (Ok model_package,
           set_page (page w ++ [st_success ("✅ 모델 로드 성공: " ++ path)%string]) w)
      | Some (inl e) =>
          (Stop,
           set_page
             (page w ++ [st_error ("모델 로드 중 오류 발생: " ++ exn_str e)%string]) w)
      | None => (Stop, w)
      end
  end.
Proof.
  unfold load_model. rewrite run_bind, run_find_path.
  fold (first_existing (files w)).
  destruct (first_existing (files w)) as [path|] eqn:Hfirst.
  - apply first_existing_Some in Hfirst as [content Hcontent].
    unfold try_except. rewrite run_bind. unfold pickle_load.
    rewrite Hcontent.
    destruct content as [e|model_package]; reflexivity.
  - unfold missing_file_page, possible_paths. cbn [mapM].
    repeat (rewrite run_bind, ?run_show, ?run_ret; cbv beta iota).
    unfold st_stop, set_page. cbn [heap files page].
    by rewrite <- !app_assoc.
Qed.

(** ** The prediction path *)

Lemma run_index {V} (a : list V) (i : nat) (w : world) :
  index a i w =
  (match a !! i with Some v => Ok v | None => Raise IndexError end, w).
Proof. unfold index. by destruct (a !! i). Qed.

(** The prediction path on a package whose three required fields hold a
    list of names, a scaler and a classifier. *)
Lemma run_main_predict (d : gmap string Q) (pkg : gmap string value)
    (names : list string) (f : list Q -> exception + list Q)
    (g : list Q -> exception + list Z)
    (h : list Q -> exception + list (list Q)) (w : world) :
  pkg !! "feature_names" = Some (VNames names) ->
  pkg !! "scaler" = Some (VScaler f) ->
  pkg !! "model" = Some (VModel g h) ->
  main_predict d pkg w =
  match f (map (fun col => default 0%Q (d !! col)) names) with
  | inl e => (Raise e, w)
  | inr x =>
      match g x with
      | inl e => (Raise e, w)
      | inr labels =>
          match labels !! 0 with
          | None => (Raise IndexError, w)
          | Some label =>
              match h x with
              | inl e => (Raise e, w)
              | inr probas =>
                  match probas !! 0 with
                  | None => (Raise IndexError, w)
                  | Some row =>
                      match row !! 1, row !! 0 with
                      | Some churn, Some retain =>
                          (recs ← recommendation_list churn d;
                           mret (Result label churn retain
                                   (get_risk_level churn) recs)) w
                      | _, _ => (Raise IndexError, w)
                      end
                  end
              end
          end
      end
  end.
Proof.
  intros Hnames Hscaler Hmodel. unfold main_predict.
  rewrite run_bind, (run_preprocess_input _ _ _ _ _ Hnames Hscaler), run_call.
  destruct (f _) as [e|x]; [reflexivity|].
  rewrite run_bind, (run_getitem_Some _ _ _ _ Hmodel).
  rewrite run_bind. cbn [predict predict_proba]. rewrite run_call.
  destruct (g x) as [e|labels]; [reflexivity|].
  rewrite run_bind, run_index.
  destruct (labels !! 0) as [label|]; [|reflexivity].
  rewrite run_bind, run_call.
  destruct (h x) as [e|probas]; [reflexivity|].
  rewrite run_bind, run_index.
  destruct (probas !! 0) as [row|]; [|reflexivity].
  rewrite run_bind, run_index.
  destruct (row !! 1) as [churn|]; [|reflexivity].
  rewrite run_bind, run_index.
  destruct (row !! 0) as [retain|]; reflexivity.
Qed.

Ltac run_step :=
  first [ rewrite run_ret | rewrite run_call | rewrite run_index
        | rewrite run_align | rewrite run_bind ];
  cbv beta iota.

(** [preprocess_input] either returns the scaler's output, the package
    then holding a list of names and a scaler, or raises; it leaves the
    world as it was. *)
Lemma preprocess_input_outcome (d : gmap string Q) (pkg : gmap string value)
    (w : world) :
  (exists names f x,
     pkg !! "feature_names" = Some (VNames names) /\
     pkg !! "scaler" = Some (VScaler f) /\
     preprocess_input d pkg w = (Ok x, w)) \/
  (exists e, preprocess_input d pkg w = (Raise e, w)).
Proof.
  destruct (pkg !! "feature_names") as [[names|f|g h|]|] eqn:Hnames;
    try (right; unfold preprocess_input, getitem; rewrite Hnames;
         by eexists).
  assert (preprocess_input d pkg w =
          (scaler ← getitem pkg "scaler";
           transform scaler
             (map (fun col => (col, default 0%Q (d !! col))) names)) w)
    as Hrun.
  { unfold preprocess_input.
    rewrite run_bind, (run_getitem_Some _ _ _ _ Hnames).
    rewrite run_bind. cbn [iter_names]. rewrite run_ret.
    rewrite run_bind. fold (align d names). by rewrite run_align. }
  rewrite Hrun, run_bind. unfold getitem.
  destruct (pkg !! "scaler") as [[names'|f|g h|]|] eqn:Hscaler;
    try (right; by eexists).
  rewrite run_ret. cbn [transform]. rewrite run_call.
  destruct (f _) as [e|x]; [right; by eexists|].
  left. by exists names, f, x.
Qed.

(** A package that lacks a required field never yields a prediction:
    the prediction path raises before it reaches the classifier. *)
Lemma main_predict_missing_field (d : gmap string Q)
    (pkg : gmap string value) (key : string) (w : world) :
  key ∈ required_fields -> pkg !! key = None ->
  exists e, main_predict d pkg w = (Raise e, w).
Proof.
  intros Hkey Hnone. unfold main_predict. rewrite run_bind.
  destruct (preprocess_input_outcome d pkg w)
    as [(names & f & x & Hnames & Hscaler & ->)|[e ->]]; [|by eexists].
  cbv beta iota. rewrite run_bind. unfold getitem.
  destruct (pkg !! "model") as [model|] eqn:Hmodel; [|by eexists].
  exfalso. unfold required_fields in Hkey.
  repeat (apply elem_of_cons in Hkey as [->|Hkey]; [congruence|]).
  by apply elem_of_nil in Hkey.
Qed.

Lemma load_model_without_names :
  load_model (world_with (inr package_without_names)) =
  (Ok package_without_names,
   set_page [st_success "✅ 모델 로드 성공: churn_model_final.pkl"]
     (world_with (inr package_without_names))).
Proof. rewrite run_load_model. reflexivity. Qed.

(** C5, as stated, fails: a package without ['feature_names'] is loaded
    with a success message, so loading does not fail whenever a required
    field is absent. *)
Lemma load_model_skips_validation :
  package_without_names !! "feature_names" = None /\
  ~ (forall (w : world) (pkg : gmap string value) (key : string),
       files w !! "churn_model_final.pkl" = Some (inr pkg) ->
       key ∈ required_fields -> pkg !! key = None ->
       exists w', load_model w = (Stop, w') \/
                  exists e, load_model w = (Raise e, w')).
Proof.
  split; [reflexivity|]. intros Hclaim.
  destruct (Hclaim (world_with (inr package_without_names))
              package_without_names "feature_names")
    as [w' [Hstop|[e Hraise]]].
  - reflexivity.
  - by left.
  - reflexivity.
  - rewrite load_model_without_names in Hstop. discriminate Hstop.
  - rewrite load_model_without_names in Hraise. discriminate Hraise.
Qed.

(** C5, amended: [load_model] halts the script, after writing an error
    to the page, exactly when no candidate file exists or the first
    existing one cannot be opened and unpickled, and [main] then serves
    nothing; a file that unpickles is returned as it is, whatever fields
    it has; a package that lacks a required field is caught only when it
    is used: the prediction path raises and serves no prediction. *)
Theorem load_model_checks_file_only (w : world) :
  (first_existing (files w) = None ->
   load_model w = (Stop, set_page (page w ++ missing_file_page) w)) /\
  (forall path e,
     first_existing (files w) = Some path ->
     files w !! path = Some (inl e) ->
     load_model w =
     (Stop,
      set_page
        (page w ++ [st_error ("모델 로드 중 오류 발생: " ++ exn_str e)%string])
        w)) /\
  (forall path (pkg : gmap string value),
     first_existing (files w) = Some path ->
     files w !! path = Some (inr pkg) ->
     load_model w =
     (Ok pkg,
      set_page (page w ++ [st_success ("✅ 모델 로드 성공: " ++ path)%string]) w)) /\
  (forall submitted w',
     load_model w = (Stop, w') -> main submitted w = (Stop, w')) /\
  (forall (pkg : gmap string value) key d,
     key ∈ required_fields -> pkg !! key = None ->
     exists e, main_predict d pkg w = (Raise e, w)).
Proof.
  split; [|split; [|split; [|split]]].
  - intros Hnone. by rewrite run_load_model, Hnone.
  - intros path e Hpath Hfile. by rewrite run_load_model, Hpath, Hfile.
  - intros path pkg Hpath Hfile. by rewrite run_load_model, Hpath, Hfile.
  - intros submitted w' Hstop. unfold main. by rewrite run_bind, Hstop.
  - intros pkg key d. apply main_predict_missing_field.
Qed.

Lemma load_model_checks_file_only_witness :
  load_model empty_world = (Stop, set_page missing_file_page empty_world) /\
  load_model (world_with (inl (Raised "UnpicklingError" "invalid load key, 'x'."))) =
    (Stop,
     set_page [st_error "모델 로드 중 오류 발생: invalid load key, 'x'."]
       (world_with (inl (Raised "UnpicklingError" "invalid load key, 'x'.")))) /\
  main (Some scenario_B) empty_world =
    (Stop, set_page missing_file_page empty_world) /\
  exists e,
    main_predict scenario_B package_without_names empty_world =
    (Raise e, empty_world).
Proof.
  destruct (load_model_checks_file_only empty_world)
    as (Hmissing & _ & _ & Hmain & Hfield).
  destruct (load_model_checks_file_only
              (world_with (inl (Raised "UnpicklingError" "invalid load key, 'x'."))))
    as (_ & Hcorrupt & _).
  split; [|split; [|split]].
  - apply Hmissing. reflexivity.
  - apply (Hcorrupt "churn_model_final.pkl"
             (Raised "UnpicklingError" "invalid load key, 'x'."));
      reflexivity.
  - apply Hmain, Hmissing. reflexivity.
  - apply (Hfield package_without_names "feature_names").
    + apply (bool_decide_unpack _). vm_compute. exact I.
    + reflexivity.
Defined.

Lemma main_predict_rejecting (w : world) :
  main_predict scenario_B package_rejecting w = (Raise width_error, w).
Proof.
  by rewrite (run_main_predict scenario_B package_rejecting form_features
                (fun _ => inl width_error)
                (fun _ => inr [1%Z])
                (fun _ => inr [[(22#100)%Q; (78#100)%Q]])).
Qed.

(** C6, as stated, fails: when the scaler rejects the row, the
    prediction path raises the scaler's own [ValueError], not an
    [InferenceError] wrapping it. *)
Lemma scaler_failure_not_wrapped :
  main_predict scenario_B package_rejecting empty_world =
    (Raise width_error, empty_world) /\
  exn_class width_error <> "InferenceError" /\
  ~ (forall (d : gmap string Q) (pkg : gmap string value) names f e w,
       pkg !! "feature_names" = Some (VNames names) ->
       pkg !! "scaler" = Some (VScaler f) ->
       f (map (fun col => default 0%Q (d !! col)) names) = inl e ->
       exists e' w',
         main_predict d pkg w = (Raise e', w') /\
         exn_class e' = "InferenceError").
Proof.
  split; [apply main_predict_rejecting|]. split; [discriminate|].
  intros Hclaim.
  destruct (Hclaim scenario_B package_rejecting form_features
              (fun _ => inl width_error) width_error empty_world)
    as (e' & w' & Hrun & Hclass); try reflexivity.
  rewrite main_predict_rejecting in Hrun.
  injection Hrun as <- _. discriminate Hclass.
Qed.

(** C6, amended: on a package with names, a scaler and a classifier, an
    exception raised by the scaler, by [predict] or by [predict_proba]
    leaves the prediction path unchanged, as the same exception, with
    the world as it was; and a result is served only when all three
    calls returned, its label and probabilities being the classifier's
    own. *)
Theorem inference_failure_propagates (d : gmap string Q)
    (pkg : gmap string value) (names : list string)
    (f : list Q -> exception + list Q) (g : list Q -> exception + list Z)
    (h : list Q -> exception + list (list Q)) (w : world) :
  pkg !! "feature_names" = Some (VNames names) ->
  pkg !! "scaler" = Some (VScaler f) ->
  pkg !! "model" = Some (VModel g h) ->
  (forall e,
     f (map (fun col => default 0%Q (d !! col)) names) = inl e ->
     main_predict d pkg w = (Raise e, w)) /\
  (forall x e,
     f (map (fun col => default 0%Q (d !! col)) names) = inr x ->
     g x = inl e ->
     main_predict d pkg w = (Raise e, w)) /\
  (forall x labels e,
     f (map (fun col => default 0%Q (d !! col)) names) = inr x ->
     g x = inr labels -> is_Some (labels !! 0) ->
     h x = inl e ->
     main_predict d pkg w = (Raise e, w)) /\
  (forall r w',
     main_predict d pkg w = (Ok r, w') ->
     exists x labels probas row,
       f (map (fun col => default 0%Q (d !! col)) names) = inr x /\
       g x = inr labels /\ labels !! 0 = Some (prediction r) /\
       h x = inr probas /\ probas !! 0 = Some row /\
       row !! 1 = Some (churn_prob r) /\
       row !! 0 = Some (retain_prob r) /\
       risk_level r = get_risk_level (churn_prob r)).
Proof.
  intros Hnames Hscaler Hmodel.
  rewrite (run_main_predict d pkg names f g h w Hnames Hscaler Hmodel).
  split; [|split; [|split]].
  - by intros e ->.
  - by intros x e -> ->.
  - intros x labels e -> -> [label ->]. by intros ->.
  - intros r w'.
    destruct (f _) as [e|x]; [discriminate|].
    destruct (g x) as [e|labels] eqn:Hg; [discriminate|].
    destruct (labels !! 0) as [label|] eqn:Hlabel; [|discriminate].
    destruct (h x) as [e|probas] eqn:Hh; [discriminate|].
    destruct (probas !! 0) as [row|] eqn:Hrow; [|discriminate].
    destruct (row !! 1) as [churn|] eqn:Hchurn; [|discriminate].
    destruct (row !! 0) as [retain|] eqn:Hretain; [|discriminate].
    rewrite run_bind.
    destruct (tier_cases churn) as [t Ht].
    rewrite (recommendation_list_run churn t d w Ht).
    destruct (recommendations_trace t d).2; [discriminate|].
    rewrite run_ret. intros [= <- _]. cbn [prediction churn_prob retain_prob risk_level].
    by exists x, labels, probas, row.
Qed.

Lemma inference_failure_propagates_witness :
  main_predict scenario_C package_rejecting empty_world =
  (Raise width_error, empty_world).
Proof.
  apply (inference_failure_propagates scenario_C package_rejecting
           form_features (fun _ => inl width_error) (fun _ => inr [1%Z])
           (fun _ => inr [[(22#100)%Q; (78#100)%Q]]) empty_world);
    reflexivity.
Defined.

(** * Further properties *)

(** ** The risk levels *)

Lemma tier_case_rank (p : Q) (t : RiskTier) :
  tier_case p t ->
  (1 <= tier_rank t <-> (3#10 <= p)%Q) /\
  (2 <= tier_rank t <-> (5#10 <= p)%Q) /\
  (3 <= tier_rank t <-> (7#10 <= p)%Q).
Proof.
  intros Ht%tier_case_bounds.
  destruct t; cbn [tier_rank]; repeat split; intros; try lia; try lra.
Qed.

(** X1: the risk level never goes down when the probability goes up. *)
Theorem get_risk_level_monotone (p q : Q) (t u : RiskTier) :
  (p <= q)%Q ->
  get_risk_level p = tier_risk t ->
  get_risk_level q = tier_risk u ->
  tier_rank t <= tier_rank u.
Proof.
  intros Hpq Ht%tier_case_of_risk Hu%tier_case_of_risk.
  destruct (tier_case_rank p t Ht) as (Hp1 & Hp2 & Hp3).
  destruct (tier_case_rank q u Hu) as (Hq1 & Hq2 & Hq3).
  assert (1 <= tier_rank t -> 1 <= tier_rank u) as H1
    by (rewrite Hp1, Hq1; lra).
  assert (2 <= tier_rank t -> 2 <= tier_rank u) as H2
    by (rewrite Hp2, Hq2; lra).
  assert (3 <= tier_rank t -> 3 <= tier_rank u) as H3
    by (rewrite Hp3, Hq3; lra).
  assert (tier_rank t <= 3) by (destruct t; simpl; lia).
  lia.
Qed.

Lemma get_risk_level_monotone_witness :
  tier_rank Moderate <= tier_rank Critical.
Proof.
  apply (get_risk_level_monotone (42#100) (78#100)); [|reflexivity..].
  unfold Qle. simpl. lia.
Defined.

(** ** Loading *)

Lemma head_filter_first (P : string -> bool) (l : list string) (i : nat)
    (x : string) :
  l !! i = Some x -> P x = true ->
  (forall j y, j < i -> l !! j = Some y -> P y = false) ->
  head (List.filter P l) = Some x.
Proof.
  revert i. induction l as [|y l IH]; intros i Hi Hx Hearlier; [done|].
  destruct i as [|i]; simpl in *.
  - injection Hi as ->. by rewrite Hx.
  - rewrite (Hearlier 0 y) by (done || lia).
    apply (IH i); [done..|].
    intros j z Hj Hz. apply (Hearlier (S j) z); [lia | done].
Qed.

(** X2: the candidate paths are tried in their listed order and only
    the first one that exists is opened: its content alone decides the
    outcome, and a corrupt first file stops the script whatever the
    later candidates hold. *)
Theorem load_model_first_existing_decides (w : world) (i : nat)
    (path : string) (content : pickled) :
  possible_paths !! i = Some path ->
  files w !! path = Some content ->
  (forall j earlier, j < i -> possible_paths !! j = Some earlier ->
                     files w !! earlier = None) ->
  load_model w =
  match content with
  | inr model_package =>
      (Ok model_package,
       set_page (page w ++ [st_success ("✅ 모델 로드 성공: " ++ path)%string]) w)
  | inl e =>
      (Stop,
       set_page
         (page w ++ [st_error ("모델 로드 중 오류 발생: " ++ exn_str e)%string]) w)
  end.
Proof.
  intros Hi Hfile Hearlier. rewrite run_load_model.
  assert (first_existing (files w) = Some path) as ->.
  { unfold first_existing. apply (head_filter_first _ _ i); [done|..].
    - apply bool_decide_eq_true. by rewrite Hfile.
    - intros j y Hj Hy. apply bool_decide_eq_false.
      rewrite (Hearlier j y Hj Hy). by intros [? ?]. }
  rewrite Hfile. by destruct content.
Qed.

Lemma load_model_first_existing_decides_witness :
  load_model world_corrupt_second =
  (Stop,
   set_page [st_error "모델 로드 중 오류 발생: invalid load key, 'x'."]
     world_corrupt_second).
Proof.
  apply (load_model_first_existing_decides world_corrupt_second 1
           "models/churn_model_final.pkl"
           (inl (Raised "UnpicklingError" "invalid load key, 'x'."))).
  - reflexivity.
  - reflexivity.
  - intros j earlier Hj Hearlier.
    destruct j as [|j]; [|lia].
    injection Hearlier as <-. reflexivity.
Defined.

(** X3: [load_model] never lets an exception out: it returns a package
    or stops the script; it leaves the list objects and the files as
    they were and only adds to the end of the page. *)
Theorem load_model_returns_or_stops (w : world) :
  (forall e, (load_model w).1 <> Raise e) /\
  heap (load_model w).2 = heap w /\
  files (load_model w).2 = files w /\
  page w `prefix_of` page (load_model w).2.
Proof.
  rewrite run_load_model.
  destruct (first_existing (files w)) as [path|];
    [destruct (files w !! path) as [[e|model_package]|]|];
    cbn [fst snd heap files page set_page];
    (split; [discriminate|]); (split; [reflexivity|]);
    (split; [reflexivity|]);
    try apply prefix_app_r; reflexivity.
Qed.

(** ** Feature alignment *)

(** X4: what the loop of [preprocess_input] does to the frame: the raw
    columns stay in front, untouched; every column added holds 0 and
    bears an expected name the raw mapping lacks; the columns afterwards
    are the raw keys together with the expected names, each once. *)
Theorem fill_missing_keeps_raw (data : gmap string Q) (names : list string) :
  DataFrame_of data `prefix_of` fill_missing names (DataFrame_of data) /\
  NoDup (columns (fill_missing names (DataFrame_of data))) /\
  (forall col,
     col ∈ columns (fill_missing names (DataFrame_of data)) <->
     is_Some (data !! col) \/ col ∈ names) /\
  (forall col v,
     (col, v) ∈ fill_missing names (DataFrame_of data) ->
     data !! col = Some v \/
     (v = 0%Q /\ col ∈ names /\ data !! col = None)).
Proof.
  assert (forall df : DataFrame,
    NoDup (columns df) ->
    df `prefix_of` fill_missing names df /\
    NoDup (columns (fill_missing names df)) /\
    (forall col, col ∈ columns (fill_missing names df) <->
                 col ∈ columns df \/ col ∈ names) /\
    (forall col v, (col, v) ∈ fill_missing names df ->
                   (col, v) ∈ df \/
                   (v = 0%Q /\ col ∈ names /\ col ∉ columns df))) as Hgen.
  { induction names as [|name names IH]; intros df Hnd; cbn [fill_missing].
    - split; [done|]. split; [done|]. split; [|by left].
      intros col. rewrite elem_of_nil. tauto.
    - case_bool_decide as Hname.
      + destruct (IH df Hnd) as (Hpre & Hnd' & Hcols & Hcells).
        split; [done|]. split; [done|]. split.
        * intros col. rewrite Hcols, elem_of_cons.
          split; [tauto|]. intros [?|[->|?]]; tauto.
        * intros col v Hin. destruct (Hcells col v Hin) as [?|(?&?&?)];
            [by left|]. right. rewrite elem_of_cons. tauto.
      + assert (NoDup (columns (df ++ [(name, 0%Q)]))) as Hnd2.
        { unfold columns. rewrite fmap_app. apply NoDup_app.
          split; [done|]. split; [|apply NoDup_singleton].
          intros col Hcol Hcol'%list_elem_of_singleton. by subst. }
        destruct (IH _ Hnd2) as (Hpre & Hnd' & Hcols & Hcells).
        split; [by etrans; [apply prefix_app_r|]|]. split; [done|]. split.
        * intros col. rewrite Hcols. unfold columns.
          rewrite fmap_app, elem_of_app, elem_of_cons. simpl.
          rewrite list_elem_of_singleton. tauto.
        * intros col v Hin.
          destruct (Hcells col v Hin) as [Hold|(-> & Hcol & Hnew)].
          -- apply elem_of_app in Hold as [?|Hnew]; [by left|].
             apply list_elem_of_singleton in Hnew as [= -> ->].
             right. rewrite elem_of_cons. tauto.
          -- right. split; [done|]. rewrite elem_of_cons.
             split; [tauto|]. intros Hold. apply Hnew.
             unfold columns. rewrite fmap_app, elem_of_app. by left. }
  destruct (Hgen (DataFrame_of data)) as (Hpre & Hnd & Hcols & Hcells).
  { apply NoDup_fst_map_to_list. }
  assert (forall col, col ∈ columns (DataFrame_of data) <-> is_Some (data !! col))
    as Hdom.
  { intros col. rewrite <- not_eq_None_Some, <- cell_DataFrame_of, cell_None.
    split; [tauto|]. intros H. by destruct (decide (col ∈ columns (DataFrame_of data))). }
  split; [done|]. split; [done|]. split.
  - intros col. by rewrite Hcols, Hdom.
  - intros col v Hin. destruct (Hcells col v Hin) as [Hold|(-> & ? & Hnew)].
    + left. by apply elem_of_map_to_list.
    + right. split; [done|]. split; [done|].
      rewrite Hdom in Hnew. by apply eq_None_not_Some.
Qed.

(** How the raw mapping enters [preprocess_input]: through the aligned
    row only. *)
Lemma preprocess_input_aligned (d : gmap string Q) (pkg : gmap string value)
    (w : world) :
  preprocess_input d pkg w =
  match pkg !! "feature_names" with
  | None => (Raise (KeyError "feature_names"), w)
  | Some (VNames names) =>
      match align d names w with
      | (Ok df, w') =>
          (scaler ← getitem pkg "scaler"; transform scaler df) w'
      | (Raise e, w') => (Raise e, w')
      | (Stop, w') => (Stop, w')
      end
  | Some _ => (Raise (Raised "TypeError" "object is not iterable"), w)
  end.
Proof.
  unfold preprocess_input. rewrite run_bind. unfold getitem at 1.
  destruct (pkg !! "feature_names") as [[names|f|g h|]|]; reflexivity.
Qed.

(** X5: a feature that is missing and a feature given as 0 are aligned
    to the same row, so whatever the package, [preprocess_input] cannot
    tell them apart. *)
Theorem align_missing_is_zero (data : gmap string Q) (key : string)
    (names : list string) (pkg : gmap string value) (w : world) :
  align (<[key := 0%Q]> data) names w = align (delete key data) names w /\
  preprocess_input (<[key := 0%Q]> data) pkg w =
  preprocess_input (delete key data) pkg w.
Proof.
  assert (forall names',
    align (<[key := 0%Q]> data) names' w = align (delete key data) names' w)
    as Halign.
  { intros names'. rewrite !run_align. do 2 f_equal. apply list_fmap_ext.
    intros i col _. simpl. f_equal.
    destruct (decide (key = col)) as [->|Hne].
    - by rewrite lookup_insert_eq, lookup_delete_eq.
    - by rewrite lookup_insert_ne, lookup_delete_ne. }
  split; [apply Halign|].
  rewrite !preprocess_input_aligned.
  destruct (pkg !! "feature_names") as [[names'|f|g h|]|]; try reflexivity.
  by rewrite Halign.
Qed.

(** X6: with no raw value at all the request is still aligned and
    scaled: the scaler receives a row of zeros, one for each expected
    name. *)
Theorem preprocess_input_empty_mapping (pkg : gmap string value)
    (names : list string) (f : list Q -> exception + list Q) (w : world) :
  pkg !! "feature_names" = Some (VNames names) ->
  pkg !! "scaler" = Some (VScaler f) ->
  align ∅ names w = (Ok (map (fun col => (col, 0%Q)) names), w) /\
  preprocess_input ∅ pkg w = call (f (replicate (length names) 0%Q)) w.
Proof.
  intros Hnames Hscaler. split; [by rewrite run_align|].
  rewrite (run_preprocess_input ∅ pkg names f w Hnames Hscaler).
  do 2 f_equal. clear. induction names as [|name names IH]; [done|].
  cbn [map length replicate]. by rewrite IH.
Qed.

Lemma preprocess_input_empty_mapping_witness :
  preprocess_input ∅ package_complete empty_world =
  (Ok (replicate 15 0%Q), empty_world).
Proof.
  apply (preprocess_input_empty_mapping package_complete form_features
           (fun x => inr x) empty_world); reflexivity.
Defined.

Lemma list_to_map_tabulate (g : string -> Q) (names : list string)
    (col : string) :
  col ∈ names ->
  (list_to_map (map (fun col => (col, g col)) names) : gmap string Q) !! col
  = Some (g col).
Proof.
  induction names as [|name names IH]; intros Hin.
  - by apply elem_of_nil in Hin.
  - cbn [map list_to_map foldr uncurry]. simpl.
    destruct (decide (name = col)) as [->|Hne].
    + by rewrite lookup_insert_eq.
    + rewrite lookup_insert_ne by done. apply IH.
      apply elem_of_cons in Hin as [->|Hin]; done.
Qed.

(** X7: aligning twice changes nothing: the aligned row, read back as a
    mapping from column to value and aligned again to the same names, is
    the same row. *)
Theorem align_idempotent (data : gmap string Q) (names : list string)
    (w : world) (df : DataFrame) :
  align data names w = (Ok df, w) ->
  align (list_to_map df) names w = (Ok df, w).
Proof.
  rewrite !run_align. intros [= <-]. do 2 f_equal.
  apply list_fmap_ext. intros i col Hcol%list_elem_of_lookup_2. simpl.
  by rewrite list_to_map_tabulate.
Qed.

Lemma align_idempotent_witness :
  exists df,
    align scenario_C form_features empty_world = (Ok df, empty_world) /\
    align (list_to_map df) form_features empty_world = (Ok df, empty_world).
Proof.
  destruct (align_dense_vector scenario_C form_features empty_world)
    as (df & Hrun & _).
  exists df. split; [exact Hrun|].
  apply (align_idempotent scenario_C form_features empty_world df Hrun).
Defined.

(** X8: the order of the row is the order of the expected names and
    nothing else: the row for two lists of names put end to end is the
    two rows put end to end, and reordering the names reorders the row
    in the same way. *)
Theorem align_follows_names (data : gmap string Q) (names1 names2 : list string)
    (w : world) :
  (exists df1 df2,
     align data names1 w = (Ok df1, w) /\
     align data names2 w = (Ok df2, w) /\
     align data (names1 ++ names2) w = (Ok (df1 ++ df2), w)) /\
  (names1 ≡ₚ names2 ->
   exists df1 df2,
     align data names1 w = (Ok df1, w) /\
     align data names2 w = (Ok df2, w) /\
     df1 ≡ₚ df2).
Proof.
  split.
  - eexists _, _. rewrite !run_align. by rewrite map_app.
  - intros Hperm. eexists _, _. rewrite !run_align.
    split; [done|]. split; [done|]. by apply fmap_Permutation.
Qed.

Lemma align_follows_names_witness :
  exists df1 df2,
    align scenario_B ["Age"; "Credit_Balance"] empty_world =
      (Ok df1, empty_world) /\
    align scenario_B ["Credit_Balance"; "Age"] empty_world =
      (Ok df2, empty_world) /\
    df1 ≡ₚ df2.
Proof.
  apply (align_follows_names scenario_B ["Age"; "Credit_Balance"]
           ["Credit_Balance"; "Age"] empty_world).
  apply perm_swap.
Defined.

(** X9: a required field that is absent is reported by name, at its
    first use: ['feature_names'] before anything else, ['scaler'] once
    the row is aligned, ['model'] once the row is scaled; nothing has
    been changed by then. *)
Theorem missing_field_is_named (d : gmap string Q) (pkg : gmap string value)
    (w : world) :
  (pkg !! "feature_names" = None ->
   preprocess_input d pkg w = (Raise (KeyError "feature_names"), w) /\
   main_predict d pkg w = (Raise (KeyError "feature_names"), w)) /\
  (forall names,
     pkg !! "feature_names" = Some (VNames names) ->
     pkg !! "scaler" = None ->
     preprocess_input d pkg w = (Raise (KeyError "scaler"), w) /\
     main_predict d pkg w = (Raise (KeyError "scaler"), w)) /\
  (forall names f x,
     pkg !! "feature_names" = Some (VNames names) ->
     pkg !! "scaler" = Some (VScaler f) ->
     f (map (fun col => default 0%Q (d !! col)) names) = inr x ->
     pkg !! "model" = None ->
     preprocess_input d pkg w = (Ok x, w) /\
     main_predict d pkg w = (Raise (KeyError "model"), w)).
Proof.
  split; [|split].
  - intros Hnames.
    assert (preprocess_input d pkg w = (Raise (KeyError "feature_names"), w))
      as Hpre by (by rewrite preprocess_input_aligned, Hnames).
    split; [done|]. unfold main_predict. by rewrite run_bind, Hpre.
  - intros names Hnames Hscaler.
    assert (preprocess_input d pkg w = (Raise (KeyError "scaler"), w)) as Hpre.
    { rewrite preprocess_input_aligned, Hnames, run_align, run_bind.
      by rewrite (run_getitem_None _ _ _ Hscaler). }
    split; [done|]. unfold main_predict. by rewrite run_bind, Hpre.
  - intros names f x Hnames Hscaler Hf Hmodel.
    assert (preprocess_input d pkg w = (Ok x, w)) as Hpre
      by (by rewrite (run_preprocess_input d pkg names f w), Hf).
    split; [done|]. unfold main_predict. rewrite run_bind, Hpre.
    by rewrite run_bind, (run_getitem_None _ _ _ Hmodel).
Qed.

Lemma missing_field_is_named_witness :
  main_predict scenario_B package_without_names empty_world =
    (Raise (KeyError "feature_names"), empty_world) /\
  main_predict scenario_B package_without_model empty_world =
    (Raise (KeyError "model"), empty_world).
Proof.
  destruct (missing_field_is_named scenario_B package_without_names
              empty_world) as (Hnames & _).
  destruct (missing_field_is_named scenario_B package_without_model
              empty_world) as (_ & _ & Hmodel).
  split.
  - apply Hnames. reflexivity.
  - eapply (Hmodel form_features (fun x => inr x)); reflexivity.
Defined.

(** ** The recommendation engine *)

(** X10: when checked keys are missing, the call raises [KeyError] for
    the first missing one in the order service calls, cart abandonment,
    days since last purchase, and returns no list. *)
Theorem first_missing_key_is_raised (p : Q) (d : gmap string Q) (w : world) :
  (d !! "Customer_Service_Calls" = None ->
   (get_recommendations p d w).1 = Raise (KeyError "Customer_Service_Calls")) /\
  (is_Some (d !! "Customer_Service_Calls") ->
   d !! "Cart_Abandonment_Rate" = None ->
   (get_recommendations p d w).1 = Raise (KeyError "Cart_Abandonment_Rate")) /\
  (is_Some (d !! "Customer_Service_Calls") ->
   is_Some (d !! "Cart_Abandonment_Rate") ->
   d !! "Days_Since_Last_Purchase" = None ->
   (get_recommendations p d w).1 =
   Raise (KeyError "Days_Since_Last_Purchase")).
Proof.
  destruct (tier_cases p) as [t Ht].
  rewrite (get_recommendations_run p t d w Ht). unfold recommendations_trace.
  split; [|split].
  - by intros ->.
  - by intros [calls ->] ->.
  - by intros [calls ->] [cart ->] ->.
Qed.

Lemma first_missing_key_is_raised_witness :
  (get_recommendations (78#100) (delete "Cart_Abandonment_Rate"
     (delete "Days_Since_Last_Purchase" scenario_B)) empty_world).1 =
  Raise (KeyError "Cart_Abandonment_Rate").
Proof.
  apply (first_missing_key_is_raised (78#100)); [|reflexivity].
  eexists. reflexivity.
Defined.

Lemma Qlt_bool_mono (a x y : Q) :
  (x <= y)%Q -> Qlt_bool a x = true -> Qlt_bool a y = true.
Proof. rewrite !Qlt_bool_iff. intros. lra. Qed.

Lemma rule_sublist (a x y : Q) (message : string) :
  (x <= y)%Q ->
  sublist (if Qlt_bool a x then [message] else [])
          (if Qlt_bool a y then [message] else []).
Proof.
  intros Hxy. destruct (Qlt_bool a x) eqn:Hx.
  - by rewrite (Qlt_bool_mono a x y Hxy Hx).
  - apply sublist_nil_l.
Qed.

(** X11: raising any of the three checked features never removes a
    recommendation: the list for the smaller values is a sublist of the
    list for the larger ones. *)
Theorem recommendations_grow_with_features (p : Q) (d d' : gmap string Q)
    (calls cart days calls' cart' days' : Q) (w w' : world) :
  d !! "Customer_Service_Calls" = Some calls ->
  d !! "Cart_Abandonment_Rate" = Some cart ->
  d !! "Days_Since_Last_Purchase" = Some days ->
  d' !! "Customer_Service_Calls" = Some calls' ->
  d' !! "Cart_Abandonment_Rate" = Some cart' ->
  d' !! "Days_Since_Last_Purchase" = Some days' ->
  (calls <= calls')%Q -> (cart <= cart')%Q -> (days <= days')%Q ->
  exists l l',
    (recommendation_list p d w).1 = Ok l /\
    (recommendation_list p d' w').1 = Ok l' /\
    sublist l l'.
Proof.
  intros H1 H2 H3 H1' H2' H3' Hcalls Hcart Hdays.
  destruct (tier_cases p) as [t Ht].
  rewrite !(recommendation_list_run p t _ _ Ht).
  rewrite (recommendations_trace_present t d _ _ _ H1 H2 H3).
  rewrite (recommendations_trace_present t d' _ _ _ H1' H2' H3').
  eexists _, _. split; [done|]. split; [done|].
  apply sublist_app; [done|]. unfold supplementary.
  repeat apply sublist_app; by apply rule_sublist.
Qed.

Lemma recommendations_grow_with_features_witness :
  exists l l',
    (recommendation_list (42#100) (input_data default_form) empty_world).1 =
      Ok l /\
    (recommendation_list (42#100) scenario_B empty_world).1 = Ok l' /\
    sublist l l'.
Proof.
  apply (recommendations_grow_with_features (42#100)
           (input_data default_form) scenario_B 3 50 30 7 65 90);
    try reflexivity; unfold Qle; simpl; lia.
Defined.

(** X12: the thresholds themselves trigger nothing: the list is just the
    two base messages exactly when no checked feature exceeds its
    threshold (calls at most 5, cart abandonment and days at most 60),
    and it has all five entries exactly when all three exceed it. *)
Theorem recommendations_at_thresholds (p : Q) (d : gmap string Q)
    (calls cart days : Q) (w : world) :
  d !! "Customer_Service_Calls" = Some calls ->
  d !! "Cart_Abandonment_Rate" = Some cart ->
  d !! "Days_Since_Last_Purchase" = Some days ->
  exists l,
    (recommendation_list p d w).1 = Ok l /\
    (length l = 2 <-> (calls <= 5)%Q /\ (cart <= 60)%Q /\ (days <= 60)%Q) /\
    (length l = 5 <-> (5 < calls)%Q /\ (60 < cart)%Q /\ (60 < days)%Q).
Proof.
  intros H1 H2 H3. destruct (tier_cases p) as [t Ht].
  rewrite (recommendation_list_run p t d w Ht).
  rewrite (recommendations_trace_present t d _ _ _ H1 H2 H3).
  exists (tier_base_messages t ++ supplementary calls cart days).
  split; [done|]. rewrite length_app.
  assert (length (tier_base_messages t) = 2) as -> by (by destruct t).
  unfold supplementary.
  destruct (Qlt_bool 5 calls) eqn:Hc, (Qlt_bool 60 cart) eqn:Hk,
           (Qlt_bool 60 days) eqn:Hd;
    repeat match goal with
      | H : Qlt_bool _ _ = true |- _ => apply Qlt_bool_iff in H
      | H : Qlt_bool _ _ = false |- _ =>
          apply not_true_iff_false in H; rewrite Qlt_bool_iff in H;
          apply Qnot_lt_le in H
      end;
    cbn [app length]; split; split; intros; try lia; try lra;
    repeat split; lra.
Qed.

Lemma recommendations_at_thresholds_witness :
  exists l,
    (recommendation_list (78#100)
       (<["Customer_Service_Calls" := 5%Q]>
          (<["Cart_Abandonment_Rate" := 60%Q]>
             (<["Days_Since_Last_Purchase" := 60%Q]> ∅))) empty_world).1 = Ok l /\
    (length l = 2 <-> (5 <= 5)%Q /\ (60 <= 60)%Q /\ (60 <= 60)%Q) /\
    (length l = 5 <-> (5 < 5)%Q /\ (60 < 60)%Q /\ (60 < 60)%Q).
Proof.
  apply (recommendations_at_thresholds (78#100)); reflexivity.
Defined.

Lemma insert_last {A} (h : list A) (x y : A) :
  <[length h := y]> (h ++ [x]) = h ++ [y].
Proof. rewrite <- (Nat.add_0_r (length h)). by rewrite insert_app_r. Qed.

(** X13: every call builds a list object of its own: after two calls
    with the same arguments, an element appended to the first list does
    not show up in the second. *)
Theorem recommendation_lists_not_shared (p : Q) (d : gmap string Q)
    (s : string) (w : world) :
  is_Some (d !! "Customer_Service_Calls") ->
  is_Some (d !! "Cart_Abandonment_Rate") ->
  is_Some (d !! "Days_Since_Last_Purchase") ->
  exists l,
    (recommendation_list p d w).1 = Ok l /\
    (append_to_first p d s w).1 = Ok (l ++ [s], l).
Proof.
  intros [calls H1] [cart H2] [days H3]. destruct (tier_cases p) as [t Ht].
  pose proof (recommendations_trace_present t d _ _ _ H1 H2 H3) as Htrace.
  exists (tier_base_messages t ++ supplementary calls cart days).
  rewrite (recommendation_list_run p t d w Ht), Htrace.
  split; [done|]. unfold append_to_first.
  rewrite run_bind, (get_recommendations_run p t d w Ht), Htrace.
  cbn [fst snd]. set (l := tier_base_messages t ++ supplementary calls cart days).
  rewrite run_bind, (get_recommendations_run p t d _ Ht), Htrace.
  cbn [fst snd heap set_heap].
  rewrite run_bind. unfold list_append. cbn [heap set_heap].
  rewrite lookup_app_l by (rewrite length_app; simpl; lia).
  rewrite list_lookup_middle by done.
  rewrite insert_app_l by (rewrite length_app; simpl; lia).
  rewrite (insert_last (heap w) l (l ++ [s])).
  rewrite run_bind. unfold list_read at 1. cbn [heap set_heap].
  rewrite lookup_app_l by (rewrite length_app; simpl; lia).
  rewrite list_lookup_middle by done.
  rewrite run_bind. unfold list_read. cbn [heap set_heap].
  rewrite list_lookup_middle by (rewrite !length_app; simpl; lia).
  reflexivity.
Qed.

Lemma recommendation_lists_not_shared_witness :
  exists l,
    (recommendation_list (78#100) scenario_B empty_world).1 = Ok l /\
    (append_to_first (78#100) scenario_B "extra" empty_world).1 =
    Ok (l ++ ["extra"], l).
Proof.
  apply (recommendation_lists_not_shared (78#100) scenario_B "extra"
           empty_world); eexists; reflexivity.
Defined.

(** ** [main] *)



Lemma input_data_checked (fm : form) :
  input_data fm !! "Customer_Service_Calls" = Some (customer_service_calls fm) /\
  input_data fm !! "Cart_Abandonment_Rate" = Some (cart_abandonment fm) /\
  input_data fm !! "Days_Since_Last_Purchase" = Some (days_since_last fm).
Proof. repeat split; vm_compute; reflexivity. Qed.



(** X16: a request built by the form is always served once the scaler
    and the classifier answer: no key is missing; the label and the two
    probabilities are the classifier's; and the risk level and the base
    messages shown belong to one and the same tier. *)
Theorem form_request_is_served (fm : form) (pkg : gmap string value)
    (names : list string)
    (f : list Q -> exception + list Q) (g : list Q -> exception + list Z)
    (h : list Q -> exception + list (list Q))
    (x : list Q) (labels : list Z) (label : Z) (probas : list (list Q))
    (row : list Q) (churn retain : Q) (w : world) :
  pkg !! "feature_names" = Some (VNames names) ->
  pkg !! "scaler" = Some (VScaler f) ->
  pkg !! "model" = Some (VModel g h) ->
  f (map (fun col => default 0%Q (input_data fm !! col)) names) = inr x ->
  g x = inr labels -> labels !! 0 = Some label ->
  h x = inr probas -> probas !! 0 = Some row ->
  row !! 1 = Some churn -> row !! 0 = Some retain ->
  exists t,
    get_risk_level churn = tier_risk t /\
    (main_predict (input_data fm) pkg w).1 =
    Ok {| prediction := label; churn_prob := churn; retain_prob := retain;
          risk_level := tier_risk t;
          recommendations :=
            tier_base_messages t ++
            supplementary (customer_service_calls fm) (cart_abandonment fm)
              (days_since_last fm) |}.
Proof.
  intros Hnames Hscaler Hmodel Hf Hg Hlabel Hh Hrow Hchurn Hretain.
  destruct (tier_cases churn) as [t Ht]. exists t.
  pose proof (get_risk_level_case churn t Ht) as Hrisk.
  split; [done|].
  rewrite (run_main_predict _ pkg names f g h w Hnames Hscaler Hmodel).
  rewrite Hf, Hg, Hlabel, Hh, Hrow, Hchurn, Hretain, run_bind.
  rewrite (recommendation_list_run churn t _ w Ht).
  destruct (input_data_checked fm) as (H1 & H2 & H3).
  rewrite (recommendations_trace_present t _ _ _ _ H1 H2 H3).
  cbn [fst snd]. by rewrite run_ret, Hrisk.
Qed.

Lemma form_request_is_served_witness :
  exists t,
    get_risk_level (78#100) = tier_risk t /\
    (main_predict (input_data default_form) package_complete empty_world).1 =
    Ok {| prediction := 1; churn_prob := 78#100; retain_prob := 22#100;
          risk_level := tier_risk t;
          recommendations :=
            tier_base_messages t ++ supplementary 3 50 30 |}.
Proof.
  apply (form_request_is_served default_form package_complete form_features
           (fun x => inr x) (fun _ => inr [1%Z])
           (fun _ => inr [[(22#100)%Q; (78#100)%Q]])
           [3; 2000; 50; 35; 15; 40; 30; 120; 25; 30; 8; 30; 5; 15; 500]%Q
           [1%Z] 1%Z [[(22#100)%Q; (78#100)%Q]] [(22#100)%Q; (78#100)%Q]
           (78#100)%Q (22#100)%Q empty_world); reflexivity.
Defined.

(** X17: the form's dict has the fifteen expected keys: aligned to the
    fifteen feature names it gives the fifteen field values in that
    order, none of them filled in. *)
Theorem form_row_has_no_fill (fm : form) (w : world) :
  dom (input_data fm) = list_to_set form_features /\
  align (input_data fm) form_features w =
  (Ok [("Customer_Service_Calls", customer_service_calls fm);
       ("Lifetime_Value", lifetime_value fm);
       ("Cart_Abandonment_Rate", cart_abandonment fm);
       ("Age", age fm);
       ("Total_Purchases", total_purchases fm);
       ("Discount_Usage_Rate", discount_usage fm);
       ("Days_Since_Last_Purchase", days_since_last fm);
       ("Average_Order_Value", avg_order_value fm);
       ("Email_Open_Rate", email_open_rate fm);
       ("Session_Duration_Avg", session_duration fm);
       ("Pages_Per_Session", pages_per_session fm);
       ("Mobile_App_Usage", mobile_usage fm);
       ("Returns_Rate", returns_rate fm);
       ("Login_Frequency", login_frequency fm);
       ("Credit_Balance", credit_balance fm)], w).
Proof.
  split.
  - unfold input_data. rewrite dom_list_to_map_L. reflexivity.
  - rewrite run_align. vm_compute. reflexivity.
Qed.

(** X18: the preview under a prediction always opens with the two base
    messages of the tier, numbered 1 and 2; its third line, if any, is
    the first supplementary message that fired, in the order service,
    checkout, win-back; and the caption pointing to the full list shows
    exactly when at least two of the three supplementary rules fired. *)
Theorem quick_recommendations_preview (p : Q) (d : gmap string Q)
    (calls cart days : Q) (w : world) :
  d !! "Customer_Service_Calls" = Some calls ->
  d !! "Cart_Abandonment_Rate" = Some cart ->
  d !! "Days_Since_Last_Purchase" = Some days ->
  exists t l,
    get_risk_level p = tier_risk t /\
    (recommendation_list p d w).1 = Ok l /\
    take 2 (quick_recommendations l) =
      imap (fun i message =>
              Element (st_info (pretty (S i) ++ ". " ++ message)%string))
           (tier_base_messages t) /\
    quick_recommendations l !! 2 =
      (fun message => Element (st_info ("3. " ++ message)%string)) <$>
        head (supplementary calls cart days) /\
    (last (quick_recommendations l) =
       Some (st_caption "더 많은 추천은 '💡 맞춤 추천' 탭에서 확인하세요.") <->
     ((5 < calls)%Q /\ (60 < cart)%Q) \/
     ((5 < calls)%Q /\ (60 < days)%Q) \/
     ((60 < cart)%Q /\ (60 < days)%Q)).
Proof.
  intros H1 H2 H3. destruct (tier_cases p) as [t Ht].
  exists t, (tier_base_messages t ++ supplementary calls cart days).
  split; [by apply get_risk_level_case|].
  rewrite (recommendation_list_run p t d w Ht).
  rewrite (recommendations_trace_present t d _ _ _ H1 H2 H3).
  split; [reflexivity|]. clear H1 H2 H3 Ht. unfold supplementary.
  destruct (Qlt_bool 5 calls) eqn:Hc, (Qlt_bool 60 cart) eqn:Hk,
           (Qlt_bool 60 days) eqn:Hd;
    repeat match goal with
      | H : Qlt_bool _ _ = true |- _ => apply Qlt_bool_iff in H
      | H : Qlt_bool _ _ = false |- _ =>
          apply not_true_iff_false in H; rewrite Qlt_bool_iff in H;
          apply Qnot_lt_le in H
      end;
    destruct t;
    (split; [vm_compute; reflexivity|]);
    (split; [vm_compute; reflexivity|]);
    (split;
     [ intros Hlast; vm_compute in Hlast;
       first [discriminate Hlast | lra]
     | intros Hguards; first [vm_compute; reflexivity | exfalso; lra] ]).
Qed.

Lemma quick_recommendations_preview_witness :
  exists t l,
    get_risk_level (78#100) = tier_risk t /\
    (recommendation_list (78#100) scenario_B empty_world).1 = Ok l /\
    take 2 (quick_recommendations l) =
      imap (fun i message =>
              Element (st_info (pretty (S i) ++ ". " ++ message)%string))
           (tier_base_messages t) /\
    quick_recommendations l !! 2 =
      (fun message => Element (st_info ("3. " ++ message)%string)) <$>
        head (supplementary 7 65 90) /\
    (last (quick_recommendations l) =
       Some (st_caption "더 많은 추천은 '💡 맞춤 추천' 탭에서 확인하세요.") <->
     ((5 < 7)%Q /\ (60 < 65)%Q) \/
     ((5 < 7)%Q /\ (60 < 90)%Q) \/
     ((60 < 65)%Q /\ (60 < 90)%Q)).
Proof.
  apply (quick_recommendations_preview (78#100) scenario_B 7 65 90
           empty_world); apply scenario_B_lookups.
Defined.

(** X19: the answers of the classifier are indexed without a check: an
    empty array of labels, an empty array of probability rows, or a row
    with fewer than two probabilities makes the prediction path raise
    [IndexError], and [predict_proba] is not even called when the labels
    are empty. *)
Theorem short_answers_raise_IndexError (d : gmap string Q)
    (pkg : gmap string value) (names : list string)
    (f : list Q -> exception + list Q) (g : list Q -> exception + list Z)
    (h h' : list Q -> exception + list (list Q)) (x : list Q) (w : world) :
  pkg !! "feature_names" = Some (VNames names) ->
  pkg !! "scaler" = Some (VScaler f) ->
  pkg !! "model" = Some (VModel g h) ->
  f (map (fun col => default 0%Q (d !! col)) names) = inr x ->
  (g x = inr [] ->
   main_predict d pkg w = (Raise IndexError, w) /\
   main_predict d (<["model" := VModel g h']> pkg) w = (Raise IndexError, w)) /\
  (forall labels,
     g x = inr labels -> is_Some (labels !! 0) -> h x = inr [] ->
     main_predict d pkg w = (Raise IndexError, w)) /\
  (forall labels probas row,
     g x = inr labels -> is_Some (labels !! 0) ->
     h x = inr probas -> probas !! 0 = Some row -> length row < 2 ->
     main_predict d pkg w = (Raise IndexError, w)).
Proof.
  intros Hnames Hscaler Hmodel Hf.
  rewrite (run_main_predict d pkg names f g h w Hnames Hscaler Hmodel), Hf.
  split; [|split].
  - intros Hg.
    rewrite (run_main_predict d _ names f g h' w), Hf, Hg; [done|..].
    + by rewrite lookup_insert_ne.
    + by rewrite lookup_insert_ne.
    + by rewrite lookup_insert_eq.
  - by intros labels -> [label ->] ->.
  - intros labels probas row -> [label ->] -> -> Hlen.
    destruct row as [|retain [|churn row]]; simpl in Hlen; [done..|lia].
Qed.

Lemma short_answers_raise_IndexError_witness :
  main_predict scenario_B
    (<["model" := VModel (fun _ => inr [1%Z]) (fun _ => inr [[1%Q]])]>
       package_complete) empty_world =
  (Raise IndexError, empty_world).
Proof.
  eapply (short_answers_raise_IndexError scenario_B _ form_features
            (fun x => inr x) (fun _ => inr [1%Z]) (fun _ => inr [[1%Q]])
            (fun _ => inr []));
    try reflexivity.
  - by eexists.
  - simpl. lia.
Defined.
